(** * ironic.common.images: a shallow embedding and its verified properties

    The development follows [ironic/common/images.py].  Python code that
    touches the file system, logs, or spawns external programs is written
    in a small state-and-exception monad over an explicit [world]; pure
    helpers are plain functions.  Collaborators that live outside the
    module (the oslo format inspector, qemu-img, zstd, the image service)
    are interfaces whose behaviour is supplied by the environment. *)

From Stdlib Require Import ZArith QArith String Ascii List Lia.
From Stdlib Require Import Strings.Byte.
From stdpp Require Import base gmap strings list pretty.

Open Scope string_scope.
Set Warnings "-clear-no-such-hyp".

Abbreviation bytes := (list Byte.byte).

(** ** Exceptions *)

Inductive exn : Set :=
  | ImageFormatError        (* oslo_utils format_inspector *)
  | SafetyCheckFailed       (* oslo_utils format_inspector *)
  | InvalidImage            (* ironic.common.exception *)
  | ImageUnacceptable
  | ImageConvertFailed
  | ImageCreationFailed
  | ImageRefValidationFailed
  | ProcessExecutionError   (* oslo_concurrency.processutils *)
  | OSError
  | FileNotFoundError
  | IndexError
  | AttributeError.

(** [except OSError] (and its alias [EnvironmentError]) catches the
    built-in subclasses of [OSError]; [ProcessExecutionError] derives
    from [Exception] directly. *)
Definition is_OSError (e : exn) : bool :=
  match e with
  | OSError | FileNotFoundError => true
  | _ => false
  end.

Definition is_ProcessExecutionError (e : exn) : bool :=
  match e with ProcessExecutionError => true | _ => false end.

Definition is_ImageFormatError (e : exn) : bool :=
  match e with ImageFormatError => true | _ => false end.

Definition is_SafetyCheckFailed (e : exn) : bool :=
  match e with SafetyCheckFailed => true | _ => false end.

(** ** The world: files, and an ordered trace of observable events *)

Inductive level : Set := DEBUG | WARNING | ERROR.

Inductive event : Type :=
  | Log (lvl : level) (msg : string) (args : list string)
  | Execute (cmd : list string)                          (* utils.execute *)
  | ConvertImage (src dst out_fmt src_fmt : string)      (* qemu_img.convert_image *)
  | ExtractIso (iso dir : string)                        (* pycdlib walk *)
  | CopyFile (src dst : string)                          (* shutil.copyfile *)
  | WriteBytes (dst : string)                            (* Path.write_bytes *)
  | HeadRequest (href : string).                         (* validate_href *)

Record world : Type := World {
  files : gmap string bytes;
  trace : list event;
  tmp_counter : nat;
  free_memory : Z
}.

Definition set_files (f : gmap string bytes → gmap string bytes) (w : world) : world :=
  {| files := f (files w); trace := trace w;
     tmp_counter := tmp_counter w; free_memory := free_memory w |}.

Definition emit (e : event) (w : world) : world :=
  {| files := files w; trace := trace w ++ [e];
     tmp_counter := tmp_counter w; free_memory := free_memory w |}.

(** ** The monad: state passing with Python exceptions.  Effects made
    before a [raise] stay in the world. *)

Inductive outcome (A : Type) : Type :=
  | Ok (a : A)
  | Raised (e : exn).
Arguments Ok {A} a.
Arguments Raised {A} e.

Definition M (A : Type) : Type := world → outcome A * world.

Definition ret {A} (a : A) : M A := λ w, (Ok a, w).
Definition raise {A} (e : exn) : M A := λ w, (Raised e, w).

Definition bind {A B} (m : M A) (k : A → M B) : M B :=
  λ w, match m w with
       | (Ok a, w') => k a w'
       | (Raised e, w') => (Raised e, w')
       end.

Declare Scope py_scope.
Delimit Scope py_scope with py.
Notation "x <- m ;; k" := (bind m (λ x, k))
  (at level 100, m at next level, right associativity) : py_scope.
Notation "m ;; k" := (bind m (λ _, k))
  (at level 100, right associativity) : py_scope.
Open Scope py_scope.

(** [try: m except E: h] where [is_E] decides [isinstance(e, E)]. *)
Definition try_except {A} (m : M A) (is_E : exn → bool) (h : exn → M A) : M A :=
  λ w, match m w with
       | (Raised e, w') => if is_E e then h e w' else (Raised e, w')
       | r => r
       end.

(** Two [except] clauses on one [try]; a handler's own exception is not
    offered to the other clause. *)
Definition try_except2 {A} (m : M A)
    (is_E1 : exn → bool) (h1 : exn → M A) (is_E2 : exn → bool) (h2 : exn → M A) : M A :=
  λ w, match m w with
       | (Raised e, w') =>
           if is_E1 e then h1 e w'
           else if is_E2 e then h2 e w'
           else (Raised e, w')
       | r => r
       end.

(** [try: m finally: c]; an exception raised by [c] replaces the pending one. *)
Definition try_finally {A} (m : M A) (c : M unit) : M A :=
  λ w, match m w with
       | (r, w') =>
           match c w' with
           | (Ok _, w'') => (r, w'')
           | (Raised e, w'') => (Raised e, w'')
           end
       end.

Definition log (lvl : level) (msg : string) (args : list string) : M unit :=
  λ w, (Ok tt, emit (Log lvl msg args) w).

Definition tell (e : event) : M unit := λ w, (Ok tt, emit e w).

(** ** File system primitives (paths are normalised strings) *)

Definition read_file (p : string) : M bytes :=
  λ w, match files w !! p with
       | Some b => (Ok b, w)
       | None => (Raised FileNotFoundError, w)
       end.

Definition write_file (p : string) (b : bytes) : M unit :=
  λ w, (Ok tt, set_files (<[p := b]>) w).

(** [Path.unlink()] *)
Definition unlink (p : string) : M unit :=
  λ w, match files w !! p with
       | Some _ => (Ok tt, set_files (delete p) w)
       | None => (Raised FileNotFoundError, w)
       end.

(** [Path.rename(target)] and [shutil.move] on regular files: the
    target is replaced. *)
Definition rename (src dst : string) : M unit :=
  λ w, match files w !! src with
       | Some b => (Ok tt, set_files (λ m, <[dst := b]> (delete src m)) w)
       | None => (Raised FileNotFoundError, w)
       end.

Definition shutil_move := rename.

(** [fileutils.delete_if_exists] *)
Definition delete_if_exists (p : string) : M unit :=
  λ w, (Ok tt, set_files (delete p) w).

(** [with fileutils.remove_path_on_error(path): body] *)
Definition remove_path_on_error {A} (p : string) (body : M A) : M A :=
  λ w, match body w with
       | (Raised e, w') => (Raised e, set_files (delete p) w')
       | r => r
       end.

(** [path.with_suffix(path.suffix + s)] appends [s] to the final
    component, that is, to the whole normalised path. *)
Definition with_added_suffix (p s : string) : string := p ++ s.

(** ** Configuration ([ironic.conf.CONF]) *)

Record conductor_conf : Type := ConductorConf {
  disable_deep_image_inspection : bool;
  permitted_image_formats : list string;
  disable_zstandard_decompression : bool;
  disable_file_checksum : bool
}.

Record conf : Type := Conf {
  conductor : conductor_conf;
  raw_image_growth_factor : Q;
  minimum_required_memory : Z;
  grub_config_path : string;
  grub_config_template : string
}.

Existing Class conf.

(** ** Permitted formats (SafetyGate policy) *)

Record Node : Type := { uuid : string }.

Definition __node_or_image_cache (node : option Node) : string :=
  match node with
  | None => "image cache"
  | Some n => uuid n
  end.

Definition RAW_IMAGE_FORMATS : gset string := {[ "raw"; "gpt" ]}.

Definition image_format_permitted {CONF : conf} (img_format : string) : bool :=
  let permitted : gset string := list_to_set (permitted_image_formats (conductor CONF)) in
  let permitted :=
    if bool_decide ("raw" ∈ permitted) then permitted ∪ RAW_IMAGE_FORMATS else permitted in
  bool_decide (img_format ∈ permitted).

Definition image_format_matches (actual_format expected_format : string) : bool :=
  if bool_decide (expected_format ∈ ["ari"; "aki"]) then true
  else if bool_decide (expected_format = "raw") && bool_decide (actual_format ∈ RAW_IMAGE_FORMATS)
  then true
  else bool_decide (expected_format = actual_format).

Definition check_if_image_format_is_permitted {CONF : conf}
    (img_format : string) (expected_format : option string) (node : option Node) : M unit :=
  let id_string := __node_or_image_cache node in
  (if negb (image_format_permitted img_format) then
     log ERROR "Security: deploy image format is not in [conductor]permitted_image_formats"
         [id_string; img_format];;
     raise InvalidImage
   else ret tt);;
  match expected_format with
  | Some expected =>
      if negb (image_format_matches img_format expected) then
        log ERROR "Security: deploy image format does not match the expected image format"
            [id_string; img_format; expected];;
        raise InvalidImage
      else ret tt
  | None => ret tt
  end.

(** ** FormatInspector

    [oslo_utils.imageutils.format_inspector] is an external library.  The
    classification engine itself is an interface; the [format] property
    is written out as the library defines it on top of [formats]. *)

Record ImageFormatInfo : Type := {
  NAME : string;                 (* str(inspector) *)
  virtual_size : Z;
  actual_size : Z;
  safe : bool                    (* safety_check() passes *)
}.

Class InspectWrapper : Type := {
  inspector_state : Type;
  wrapper_new : inspector_state;                               (* InspectWrapper(f) *)
  wrapper_eat : inspector_state → bytes → inspector_state;     (* one read(size) window *)
  wrapper_close : inspector_state → inspector_state;           (* close(): finish all inspectors *)
  wrapper_formats : inspector_state → option (list ImageFormatInfo)
}.

Definition truthy_list {A} (o : option (list A)) : bool :=
  match o with
  | Some (_ :: _) => true
  | _ => false
  end.

Definition safety_check (i : ImageFormatInfo) : outcome unit :=
  if safe i then Ok tt else Raised SafetyCheckFailed.

Section FormatInspector.
Context {W : InspectWrapper}.

(** [wrapper.format]: [None] while undecided, an error when several
    inspectors matched, otherwise the single match. *)
Definition wrapper_format (st : inspector_state) : outcome (option ImageFormatInfo) :=
  match wrapper_formats st with
  | None => Ok None
  | Some fs =>
      if (1 <? length fs)%nat then Raised ImageFormatError
      else match fs with
           | x :: _ => Ok (Some x)
           | [] => Raised IndexError
           end
  end.

Definition window : nat := 4096.

(** [while f.peek(): wrapper.read(4096); if wrapper.formats: break].
    [rest] is what remains unread; every round consumes at least one
    byte, so [length rest] rounds always suffice. *)
Fixpoint read_windows (fuel : nat) (rest : bytes) (st : inspector_state) : inspector_state :=
  match fuel with
  | O => st
  | S fuel' =>
      match rest with
      | [] => st
      | _ :: _ =>
          let st' := wrapper_eat st (take window rest) in
          if truthy_list (wrapper_formats st') then st'
          else read_windows fuel' (drop window rest) st'
      end
  end.

(** The state of the wrapper once the [with] block of
    [detect_file_format] is left. *)
Definition inspect_stream (content : bytes) : inspector_state :=
  wrapper_close (read_windows (length content) content wrapper_new).

Definition detect_file_format (path : string) : M (option ImageFormatInfo) :=
  content <- read_file path;;
  let wrapper := inspect_stream content in
  match wrapper_format wrapper with
  | Ok r => ret r
  | Raised e =>
      if is_ImageFormatError e then
        let formats := default [] (wrapper_formats wrapper) in
        let format_names : gset string := list_to_set (NAME <$> formats) in
        if bool_decide (format_names = {[ "iso"; "gpt" ]}) then
          log DEBUG "Detected %s as ISO+GPT, allowing as ISO" [path];;
          match filter (λ x, NAME x = "iso") formats with
          | x :: _ => ret (Some x)
          | [] => raise IndexError
          end
        else raise e
      else raise e
  end.

Definition get_source_format (image_href path : string) : M string :=
  img_format <- try_except (detect_file_format path) is_ImageFormatError
                  (λ _, log ERROR "Parsing of the image failed" [image_href];;
                        raise ImageUnacceptable);;
  match img_format with
  | None =>
      log ERROR "Parsing of the image failed: format not recognized" [image_href];;
      raise ImageUnacceptable
  | Some f => ret (NAME f)
  end.

Definition force_raw_will_convert (image_href path_tmp : string) : M bool :=
  fmt <- remove_path_on_error path_tmp (get_source_format image_href path_tmp);;
  ret (bool_decide (fmt ∉ RAW_IMAGE_FORMATS)).

Definition safety_check_image (image_path : string) (node : option Node) : M string :=
  let id_string := __node_or_image_cache node in
  try_except2
    (img_class <- detect_file_format image_path;;
     match img_class with
     | None =>
         log ERROR "Security: image does not match any known format" [id_string];;
         raise InvalidImage
     | Some c =>
         (λ w, (safety_check c, w));;
         ret (NAME c)
     end)
    is_ImageFormatError
    (λ _, log ERROR "Security: image failed to be parsed by the image format checker"
              [id_string];;
          raise InvalidImage)
    is_SafetyCheckFailed
    (λ _, log ERROR "Security: image fails safety sanity checking" [id_string];;
          raise InvalidImage).

End FormatInspector.

(** ** External programs and helpers of [ironic.common.utils] *)

(** What a spawned program did: it ran and exited, leaving the file
    system in some state, or it could not be started at all. *)
Inductive exec_result : Type :=
  | Exit0 (fs : gmap string bytes)
  | ExitNonZero (fs : gmap string bytes)
  | SpawnFailed.

(** What the raw-conversion utility produced from the source bytes. *)
Inductive convert_result : Type :=
  | Converted (out : bytes)
  | ConvertError (partial : option bytes).

Class Tools : Type := {
  spawn : list string → gmap string bytes → exec_result;
  qemu_img : bytes → string → string → convert_result;   (* source, source format, target format *)
  render_template : string → list (string * string) → string;
  iso_walk : bytes → outcome (list (string * bytes))     (* pycdlib: files of an ISO, by path *)
}.

Section Utils.
Context {CONF : conf} {T : Tools}.

(** Modelled from the spec: [utils.execute] is not part of the sources
    at hand.  "External tool invocations are blocking subprocess calls
    with no automatic retry; a non-zero exit is translated immediately
    into a typed failure."  The typed failure is the
    [processutils.ProcessExecutionError] that the callers in
    [images.py] catch; a program that cannot be started surfaces as the
    [OSError] of the subprocess machinery. *)
Definition execute (cmd : list string) : M unit :=
  tell (Execute cmd);;
  λ w, match spawn cmd (files w) with
       | Exit0 fs => (Ok tt, set_files (λ _, fs) w)
       | ExitNonZero fs => (Raised ProcessExecutionError, set_files (λ _, fs) w)
       | SpawnFailed => (Raised OSError, w)
       end.

(** Modelled from the spec: [qemu_img.convert_image] is not part of the
    sources at hand.  "Invoked as convert(srcPath, dstPath,
    targetFormat, sourceFormat) -> exit status; non-zero exit or
    malformed output is a hard failure."  The utility reads [src] and
    writes only [dst]. *)
Definition convert_image (src dst out_format source_format : string) : M unit :=
  tell (ConvertImage src dst out_format source_format);;
  λ w, match files w !! src with
       | None => (Raised ProcessExecutionError, w)
       | Some b =>
           match qemu_img b source_format out_format with
           | Converted out => (Ok tt, set_files (<[dst := out]>) w)
           | ConvertError (Some part) =>
               (Raised ProcessExecutionError, set_files (<[dst := part]>) w)
           | ConvertError None => (Raised ProcessExecutionError, w)
           end
       end.

(** Modelled from the spec: [utils.is_memory_insufficient] is not part
    of the sources at hand.  "Check available working memory meets a
    minimum threshold, failing fast with ImageConvertFailed rather than
    risking an out-of-memory mid-conversion." *)
Definition is_memory_insufficient (raise_if_fail : bool) : M bool :=
  λ w, if (free_memory w <? minimum_required_memory CONF)%Z then
         if raise_if_fail then (Raised ImageConvertFailed, w) else (Ok true, w)
       else (Ok false, w).

(** [utils.write_to_file(path, contents)] *)
Definition write_to_file (path contents : string) : M unit :=
  write_file path (list_byte_of_string contents).

Definition under_dir (dir p : string) : bool := String.prefix (dir ++ "/") p.

(** [shutil.rmtree] on the flat file map. *)
Definition rmtree (dir : string) : M unit :=
  λ w, (Ok tt, set_files (filter (λ kv, under_dir dir kv.1 = false)) w).

(** Modelled from the spec: [utils.tempdir] is not part of the sources
    at hand.  "Scoped temporary-directory acquisition: the directory
    and everything under it is removed when the owning call returns, on
    both success and failure paths." *)
Definition tempdir {A} (body : string → M A) : M A :=
  λ w,
    let dir := "/tmp/tmp" ++ pretty (tmp_counter w) in
    let w1 := {| files := files w; trace := trace w;
                 tmp_counter := S (tmp_counter w); free_memory := free_memory w |} in
    try_finally (body dir) (rmtree dir) w1.

End Utils.

(** ** ConversionPipeline *)

Section Conversion.
Context {CONF : conf} {W : InspectWrapper} {T : Tools}.

(** The first statement of [image_to_raw]'s [with] block: the [if]
    on [disable_deep_image_inspection] that binds [fmt]. *)
Definition image_to_raw_inspect (image_href path path_tmp : string) : M string :=
  if negb (disable_deep_image_inspection (conductor CONF)) then
    fmt <- safety_check_image path_tmp None;;
    (if negb (image_format_permitted fmt) then
       log ERROR "Security: image format is not in [conductor]permitted_image_formats"
           [image_href; fmt];;
       raise InvalidImage
     else ret tt);;
    ret fmt
  else
    fmt <- get_source_format image_href path;;
    log WARNING "Security: Image safety checking has been disabled. This is unsafe operation."
        [fmt; path];;
    ret fmt.

(** The second statement: convert unless the format is raw, gpt or iso. *)
Definition image_to_raw_convert (image_href path path_tmp fmt : string) : M unit :=
  if bool_decide (fmt ∉ RAW_IMAGE_FORMATS) && bool_decide (fmt ≠ "iso") then
    let staged := with_added_suffix path ".converted" in
    is_memory_insufficient true;;
    log DEBUG "%(image)s was %(format)s, converting to raw" [image_href; fmt];;
    remove_path_on_error staged
      (convert_image path_tmp staged "raw" fmt;;
       unlink path_tmp;;
       new_fmt <- get_source_format image_href staged;;
       (if bool_decide (new_fmt ∉ RAW_IMAGE_FORMATS) then raise ImageConvertFailed
        else ret tt);;
       rename staged path)
  else
    rename path_tmp path.

Definition image_to_raw (image_href path path_tmp : string) : M unit :=
  remove_path_on_error path_tmp
    (fmt <- image_to_raw_inspect image_href path path_tmp;;
     image_to_raw_convert image_href path path_tmp fmt).

(** *** ChecksumGuard: the zstd wrapper *)

Definition zstd_magic : bytes := [x28; xb5; x2f; xfd].

(** [bytes.startswith] *)
Fixpoint startswith (b pre : bytes) : bool :=
  match pre, b with
  | [], _ => true
  | p :: pre', c :: b' => Byte.eqb p c && startswith b' pre'
  | _ :: _, [] => false
  end.

Definition _handle_zstd_compression (path : string) : M unit :=
  content <- read_file path;;
  let read := take 4 content in
  let zstd_comp := startswith read zstd_magic in
  if zstd_comp && negb (disable_zstandard_decompression (conductor CONF)) then
    let temp_path := with_added_suffix path ".zstd" in
    shutil_move path temp_path;;
    try_except (execute ["zstd"; "-d"; "--rm"; temp_path]) is_OSError
      (λ _, log ERROR "Failed to decompress a zstd compressed file" [];;
            shutil_move temp_path path)
  else ret tt.

End Conversion.

(** ** Size estimation *)

(** A finite Python float is a rational.  How the platform rounds an
    exact product to binary64 is left to the environment, so what is
    proved holds for every rounding. *)
Class Binary64 : Type := { round64 : Q → Q }.

(** [int * float] *)
Definition int_mul_float {F : Binary64} (a : Z) (x : Q) : Q := round64 (inject_Z a * x)%Q.

(** [min(x, v)] for a float [x] and an int [v]: the first argument wins
    unless the second is strictly smaller. *)
Definition min_float_int (x : Q) (v : Z) : Q + Z :=
  if Qlt_le_dec (inject_Z v) x then inr v else inl x.

(** [int(.)]: truncation towards zero on floats, identity on ints. *)
Definition py_int (r : Q + Z) : Z :=
  match r with
  | inl x => Z.quot (Qnum x) (Z.pos (Qden x))
  | inr v => v
  end.

Section Size.
Context {CONF : conf} {W : InspectWrapper} {F : Binary64}.

Definition converted_size (path : string) (estimate : bool) : M Z :=
  data <- detect_file_format path;;
  match data with
  | None => raise AttributeError
  | Some data =>
      if negb estimate then ret (virtual_size data)
      else
        let growth_factor := raw_image_growth_factor CONF in
        ret (py_int (min_float_int (int_mul_float (actual_size data) growth_factor)
                                   (virtual_size data)))
  end.

End Size.

(** ** PolicyClassifier: path-like sources *)

Record response : Type := {
  headers : option (gmap string string);      (* absent attribute: [getattr(res, 'headers', {})] *)
  url : string
}.

Class ImageService : Type := {
  get_image_service : string → outcome unit;
  validate_href : string → outcome response
}.

(** [str.endswith] *)
Definition endswith (s suffix : string) : bool :=
  (String.length suffix <=? String.length s)%nat
  && String.eqb (substring (String.length s - String.length suffix)
                           (String.length suffix) s) suffix.

Section PathSource.
Context {S : ImageService}.

Definition lift {A} (r : outcome A) : M A := λ w, (r, w).

Definition is_source_a_path (image_source : option string) : M (option bool) :=
  match image_source with
  | None | Some "" => ret None
  | Some image_source =>
      lift (get_image_service image_source);;
      probed <- try_except
                  (tell (HeadRequest image_source);;
                   res <- lift (validate_href image_source);;
                   ret (Some (res, default ∅ (headers res))))
                  (λ _, true)
                  (λ _, ret None);;
      match probed with
      | None => ret None
      | Some (res, headers) =>
          if match headers !! "Content-Type" with
             | Some ct => String.prefix "text/html" ct
             | None => false
             end
          then
            log DEBUG "Content-Type header with text content suggests a file list"
                [image_source];;
            ret (Some true)
          else if match headers !! "Content-Type" with
                  | Some ct => negb (String.eqb ct "text/html")
                               && bool_decide (is_Some (headers !! "Content-Length"))
                  | None => false
                  end
          then
            log DEBUG "Content-Length header was returned suggesting file" [image_source];;
            ret (Some false)
          else if endswith (url res) "/" then ret (Some true)
          else ret (Some false)
      end
  end.

End PathSource.

(** ** RootFilesystemBuilder and BootMediaAssembler (UEFI) *)

(** A key of [files_info]: a file on disk, or its content as bytes. *)
Inductive source : Type :=
  | SrcPath (p : string)
  | SrcBytes (b : bytes).

#[global] Instance byte_eq_dec : EqDecision Byte.byte := Byte.byte_eq_dec.

#[global] Instance source_eq_dec : EqDecision source.
Proof. solve_decision. Defined.

(** Python dicts keep insertion order; assigning to a key that is
    present keeps its position. *)
Fixpoint dict_set {K V} `{EqDecision K} (k : K) (v : V) (d : list (K * V)) : list (K * V) :=
  match d with
  | [] => [(k, v)]
  | (k', v') :: d' => if decide (k = k') then (k, v) :: d' else (k', v') :: dict_set k v d'
  end.

Definition dict_update {K V} `{EqDecision K} (d other : list (K * V)) : list (K * V) :=
  fold_left (λ acc kv, dict_set kv.1 kv.2 acc) other d.

(** Python truthiness of an [Optional[str]] argument. *)
Definition truthy (o : option string) : bool :=
  match o with
  | None | Some "" => false
  | Some _ => true
  end.

(** [pathlib] on POSIX.  A path string is parsed into its root and its
    components: the string is cut at every slash, and empty components
    and [.] are dropped, [..] is kept.  Exactly two leading slashes are
    a root of their own. *)
Fixpoint split_slash (s : string) : list string :=
  match s with
  | EmptyString => [EmptyString]
  | String c s' =>
      if Ascii.eqb c "/" then EmptyString :: split_slash s'
      else match split_slash s' with
           | [] => [String c EmptyString]
           | x :: l => String c x :: l
           end
  end.

Definition path_parts (s : string) : list string :=
  filter (λ c, c ≠ "" ∧ c ≠ ".") (split_slash s).

Definition path_root (s : string) : string :=
  if String.prefix "/" s then
    if String.prefix "//" s && negb (String.prefix "///" s) then "//" else "/"
  else "".

(** [str(PurePosixPath(s))] *)
Definition Path (s : string) : string :=
  let formatted := path_root s ++ String.concat "/" (path_parts s) in
  if String.eqb formatted "" then "." else formatted.

Fixpoint ends_with_slash (s : string) : bool :=
  match s with
  | EmptyString => false
  | String c EmptyString => Ascii.eqb c "/"
  | String _ s' => ends_with_slash s'
  end.

(** [posixpath.join(a, b)] *)
Definition posixpath_join (a b : string) : string :=
  if String.prefix "/" b then b
  else if String.eqb a "" || ends_with_slash a then a ++ b
  else a ++ "/" ++ b.

(** [Path(a) / b]: the two are joined as [posixpath.join] does, an
    absolute right operand replacing the left one, and the result is
    parsed again.  The components are not resolved against the file
    system: [..] stays in the path. *)
Definition path_join (a b : string) : string := Path (posixpath_join a b).

(** The paths that name a file in [files] directly: absolute, in the
    form [pathlib] prints, and free of [..]. *)
Definition canonical (p : string) : bool :=
  String.eqb (path_root p) "/" && String.eqb (Path p) p
  && negb (bool_decide (".." ∈ path_parts p)).

(** A relative path that stays below the directory it is joined to and
    names something in it. *)
Definition clean_relative (p : string) : bool :=
  negb (String.prefix "/" p) && negb (bool_decide (path_parts p = []))
  && negb (bool_decide (".." ∈ path_parts p)).

(** [Path.name] *)
Fixpoint name_from (acc s : string) : string :=
  match s with
  | EmptyString => acc
  | String c s' =>
      if Ascii.eqb c "/" then name_from "" s' else name_from (acc ++ String c "") s'
  end.
Definition path_name (p : string) : string := name_from "" p.

(** [s.lstrip(chars)] *)
Fixpoint lstrip (chars : list ascii) (s : string) : string :=
  match s with
  | EmptyString => EmptyString
  | String c s' => if bool_decide (c ∈ chars) then lstrip chars s' else s
  end.

(** [' '.join(l)] *)
Definition join_spaces (l : list string) : string := String.concat " " l.

Definition _label (files_info : list (source * string)) : string :=
  if existsb (String.prefix "openstack/") (files_info.*2) then "config-2"
  else "VMEDIA_BOOT_ISO".

Section BootMedia.
Context {CONF : conf} {T : Tools}.

(** [shutil.copyfile]; reading [/dev/null] yields no bytes. *)
Definition copyfile (src dst : string) : M unit :=
  tell (CopyFile src dst);;
  content <- (if String.eqb src "/dev/null" then ret [] else read_file src);;
  write_file dst content.

Fixpoint _create_root_fs (root_directory : string) (files_info : list (source * string))
    : M unit :=
  match files_info with
  | [] => ret tt
  | (src_file, path) :: rest =>
      log DEBUG "Injecting %(path)s into an ISO from %(source)r" [path];;
      let target_file := path_join root_directory path in
      match src_file with
      | SrcBytes b => tell (WriteBytes target_file);; write_file target_file b
      | SrcPath p => copyfile p target_file
      end;;
      _create_root_fs root_directory rest
  end.

Definition _generate_cfg (kernel_params : option (list string)) (template : string)
    (options : list (string * string)) : string :=
  let options := dict_set "kernel_params" (join_spaces (default [] kernel_params)) options in
  render_template template options.

Definition _extract_iso (extract_iso extract_dir : string) : M unit :=
  tell (ExtractIso extract_iso extract_dir);;
  image <- read_file extract_iso;;
  listing <- (λ w, (iso_walk image, w));;
  fold_right (λ (f : string * bytes) k, write_file (path_join extract_dir f.1) f.2;; k)
             (ret tt) listing.

(** The [rglob] loop: the last file of each name wins. *)
Definition find_named (mountdir name : string) (fs : gmap string bytes) : option string :=
  last (filter (λ p, under_dir mountdir p = true ∧ path_name p = name) (map_to_list fs).*1).

Definition relative_to (p dir : string) : string :=
  substring (String.length dir + 1) (String.length p) p.

Definition _get_deploy_iso_files (deploy_iso mountdir : string)
    : M (list (source * string) * string * string) :=
  try_except (_extract_iso deploy_iso mountdir) (λ _, true)
    (λ _, log ERROR "extracting the deploy iso failed." [];;
          raise ImageCreationFailed);;
  fs <- (λ w, (Ok (files w), w));;
  match find_named mountdir "efiboot.img" fs, find_named mountdir "grub.cfg" fs with
  | Some e_img_path, Some grub_path =>
      let e_img_rel_path := relative_to e_img_path mountdir in
      let grub_rel_path := relative_to grub_path mountdir in
      ret (dict_set (SrcPath grub_path) grub_rel_path
             (dict_set (SrcPath e_img_path) e_img_rel_path []),
           e_img_rel_path, grub_rel_path)
  | _, _ =>
      rmtree mountdir;;
      raise ImageCreationFailed
  end.

Definition EFIBOOT_LOCATION : string := "boot/grub/efiboot.img".

Definition create_esp_image_for_uefi
    (output_file kernel ramdisk : string)
    (deploy_iso esp_image : option string)
    (kernel_params : option (list string))
    (inject_files : option (list (source * string)))
    (publisher_id : option string) : M unit :=
  let grub_options := [("linux", "/vmlinuz"); ("initrd", "/initrd")] in
  tempdir (λ tmpdir,
    let files_info :=
      dict_set (SrcPath ramdisk) "initrd" (dict_set (SrcPath kernel) "vmlinuz" []) in
    let files_info :=
      match inject_files with
      | Some (_ :: _ as inj) => dict_update files_info inj
      | _ => files_info
      end in
    staged <- tempdir (λ mountdir,
      located <-
        (if truthy deploy_iso && negb (truthy esp_image) then
           r <- _get_deploy_iso_files (default "" deploy_iso) mountdir;;
           let '(uefi_path_info, e_img_rel_path, grub_rel_path) := r in
           ret (uefi_path_info, e_img_rel_path, path_join tmpdir grub_rel_path)
         else if truthy esp_image && negb (truthy deploy_iso) then
           let e_img_rel_path := EFIBOOT_LOCATION in
           let grub_rel_path := lstrip [" "%char; "/"%char] (grub_config_path CONF) in
           let grub_cfg := path_join tmpdir grub_rel_path in
           ret (dict_set (SrcPath "/dev/null") grub_rel_path
                  (dict_set (SrcPath (default "" esp_image)) e_img_rel_path []),
                e_img_rel_path, grub_cfg)
         else
           raise ImageCreationFailed);;
      let '(uefi_path_info, e_img_rel_path, grub_cfg) := located in
      let files_info := dict_update files_info uefi_path_info in
      try_finally
        (try_except (_create_root_fs tmpdir files_info) is_OSError
           (λ _, log ERROR "Creating the filesystem root failed." [];;
                 raise ImageCreationFailed))
        (if truthy deploy_iso then rmtree mountdir else ret tt);;
      ret (files_info, e_img_rel_path, grub_cfg));;
    let '(files_info, e_img_rel_path, grub_cfg) := staged in
    let grub_conf := _generate_cfg kernel_params (grub_config_template CONF) grub_options in
    write_to_file grub_cfg grub_conf;;
    let args :=
      match publisher_id with
      | Some (String _ _ as pub) =>
          ["mkisofs"; "-r"; "-V"; _label files_info; "-l"; "-publisher"; pub;
           "-e"; e_img_rel_path; "-no-emul-boot"; "-o"; output_file; tmpdir]
      | _ =>
          ["mkisofs"; "-r"; "-V"; _label files_info; "-l";
           "-e"; e_img_rel_path; "-no-emul-boot"; "-o"; output_file; tmpdir]
      end in
    try_except (execute args) is_ProcessExecutionError
      (λ _, log ERROR "Creating ISO image failed." [];;
            raise ImageCreationFailed)).

End BootMedia.

(** ** Fetching *)

Record image_meta : Type := {
  image_size : Z;                              (* show(href)['size'] *)
  image_properties : gmap string string        (* show(href)['properties'] *)
}.

(** The image service selected for a reference, as far as this module
    uses it, together with [checksum_utils.validate_checksum].  A
    download delivers the bytes it managed to write and, when it broke
    off, the exception that ended it. *)
Class ImageTransfer : Type := {
  is_auth_set_needed : string → bool;
  download : string → option (option string) → bytes * option exn;
  transfer_verified_checksum : string → option string;
  show : string → outcome image_meta;
  validate_checksum : bytes → string → option string → outcome unit
}.

(** Which kind of reference a string is: [glance_utils.is_glance_image]
    and [image_service.is_container_registry_url]. *)
Class References : Type := {
  is_glance_image : string → bool;
  is_container_registry_url : string → bool
}.

Section Fetch.
Context {CONF : conf} {W : InspectWrapper} {T : Tools} {S : ImageService} {D : ImageTransfer}.

(** [fetch_into] with a path as [image_file] (the case [fetch] uses):
    the file is opened for writing, which truncates it, and receives
    what the download writes. *)
Definition fetch_into (image_href image_file : string) (image_auth_data : option string)
    : M (option string) :=
  lift (get_image_service image_href);;
  log DEBUG "Using %(image_service)s to download image %(image_href)s." [image_href];;
  let auth := if is_auth_set_needed image_href then Some image_auth_data else None in
  write_file image_file [];;
  let '(written, failure) := download image_href auth in
  write_file image_file written;;
  match failure with
  | Some e => raise e
  | None => ret tt
  end;;
  log DEBUG "Image %(image_href)s downloaded in %(time).2f seconds." [image_href];;
  if truthy (transfer_verified_checksum image_href)
  then ret (transfer_verified_checksum image_href)
  else ret None.

Definition fetch (image_href path : string) (force_raw : bool)
    (checksum checksum_algo : option string) (image_auth_data : option string) : M unit :=
  remove_path_on_error path
    (transfer_checksum <- fetch_into image_href path image_auth_data;;
     if negb (truthy transfer_checksum)
        && negb (disable_file_checksum (conductor CONF))
        && truthy checksum
     then content <- read_file path;;
          lift (validate_checksum content (default "" checksum) checksum_algo)
     else ret tt);;
  _handle_zstd_compression path;;
  if force_raw then image_to_raw image_href path (with_added_suffix path ".part")
  else ret tt.

(** [properties] is the string "all", some other string (which Python
    iterates character by character), or a list of names. *)
Definition get_image_properties (image_href : string) (properties : string + list string)
    : M (gmap string (option string)) :=
  lift (get_image_service image_href);;
  meta <- lift (show image_href);;
  let iproperties := image_properties meta in
  let pick (names : list string) : gmap string (option string) :=
    list_to_map ((λ p, (p, iproperties !! p)) <$> names) in
  match properties with
  | inl s =>
      if String.eqb s "all" then ret (Some <$> iproperties)
      else ret (pick ((λ c, String c "") <$> list_ascii_of_string s))
  | inr names => ret (pick names)
  end.

End Fetch.

(** ** PolicyClassifier: whole-disk images *)

Definition IMAGE_TYPE_PARTITION : string := "partition".
Definition IMAGE_TYPE_WHOLE_DISK : string := "whole-disk".

Section WholeDisk.
Context {S : ImageService} {D : ImageTransfer} {R : References}.

Definition is_whole_disk_image (instance_info : gmap string string) : M (option bool) :=
  let image_source := instance_info !! "image_source" in
  if negb (truthy image_source) then ret None
  else
    let image_source := default "" image_source in
    let image_type := instance_info !! "image_type" in
    if truthy image_type then
      ret (Some (negb (String.eqb (default "" image_type) IMAGE_TYPE_PARTITION)))
    else if is_glance_image image_source then
      got <- try_except (p <- get_image_properties image_source (inl "all");; ret (Some p))
               (λ _, true) (λ _, ret None);;
      match got with
      | None => ret None
      | Some iproperties =>
          let image_type := mjoin (iproperties !! "img_type") in
          if truthy image_type then
            ret (Some (negb (String.eqb (default "" image_type) IMAGE_TYPE_PARTITION)))
          else
            ret (Some (negb (truthy (mjoin (iproperties !! "kernel_id")))
                       && negb (truthy (mjoin (iproperties !! "ramdisk_id")))))
      end
    else if is_container_registry_url image_source then ret (Some true)
    else
      path_like <- is_source_a_path (instance_info !! "image_source");;
      if match path_like with Some true => true | _ => false end then ret None
      else if negb (truthy (instance_info !! "kernel"))
              && negb (truthy (instance_info !! "ramdisk"))
      then ret (Some true)
      else ret (Some false).

End WholeDisk.

(** ** BootMediaAssembler (BIOS) and [create_boot_iso] *)

Class BootConf : Type := {
  isolinux_bin : string;
  ldlinux_c32 : option string;
  isolinux_config_template : string;
  esp_image : option string
}.

(** [str(x)] of an optional string: [None] prints as "None". *)
Definition str_of (o : option string) : string := default "None" o.

Section Bios.
Context {CONF : conf} {B : BootConf} {W : InspectWrapper} {T : Tools}
        {S : ImageService} {D : ImageTransfer}.

Definition ISOLINUX_BIN : string := "isolinux/isolinux.bin".
Definition ISOLINUX_CFG : string := "isolinux/isolinux.cfg".
Definition LDLINUX_SRC_DIRS : list string :=
  ["/usr/lib/syslinux/modules/bios"; "/usr/share/syslinux"].
Definition LDLINUX_BIN : string := "isolinux/ldlinux.c32".

(** The first configured directory that holds an [ldlinux.c32] file. *)
Definition find_ldlinux : M (option string) :=
  λ w, (Ok (head (filter (λ p, is_Some (files w !! p))
                    ((λ directory, path_join directory "ldlinux.c32") <$> LDLINUX_SRC_DIRS))),
        w).

Definition create_isolinux_image_for_bios
    (output_file kernel ramdisk : string)
    (kernel_params : option (list string))
    (inject_files : option (list (source * string)))
    (publisher_id : option string) : M unit :=
  let options := [("kernel", "/vmlinuz"); ("ramdisk", "/initrd")] in
  tempdir (λ tmpdir,
    let files_info :=
      dict_set (SrcPath isolinux_bin) ISOLINUX_BIN
        (dict_set (SrcPath ramdisk) "initrd" (dict_set (SrcPath kernel) "vmlinuz" [])) in
    let files_info :=
      match inject_files with
      | Some (_ :: _ as inj) => dict_update files_info inj
      | _ => files_info
      end in
    ldlinux_src <- (if truthy ldlinux_c32 then ret ldlinux_c32 else find_ldlinux);;
    let files_info :=
      if truthy ldlinux_src then dict_set (SrcPath (default "" ldlinux_src)) LDLINUX_BIN files_info
      else files_info in
    try_except (_create_root_fs tmpdir files_info) is_OSError
      (λ _, log ERROR "Creating the filesystem root failed." [];;
            raise ImageCreationFailed);;
    let cfg := _generate_cfg kernel_params isolinux_config_template options in
    let isolinux_cfg := path_join tmpdir ISOLINUX_CFG in
    write_to_file isolinux_cfg cfg;;
    let pub_id := str_of publisher_id in
    try_except
      (execute ["mkisofs"; "-r"; "-V"; _label files_info; "-J"; "-l"; "-publisher"; pub_id;
                "-no-emul-boot"; "-boot-load-size"; "4"; "-boot-info-table";
                "-b"; ISOLINUX_BIN; "-o"; output_file; tmpdir])
      is_ProcessExecutionError
      (λ _, log ERROR "Creating ISO image failed." [];;
            raise ImageCreationFailed)).

Definition create_boot_iso
    (output_filename kernel_href ramdisk_href : string)
    (deploy_iso_href esp_image_href root_uuid kernel_params boot_mode : option string)
    (inject_files : option (list (source * string)))
    (publisher_id : option string) : M unit :=
  tempdir (λ tmpdir,
    let kernel_path := path_join tmpdir "kernel" in
    let ramdisk_path := path_join tmpdir "ramdisk" in
    fetch kernel_href kernel_path false None None None;;
    fetch ramdisk_href ramdisk_path false None None None;;
    let params := if truthy root_uuid then ["root=UUID=" ++ default "" root_uuid] else [] in
    let params := if truthy kernel_params then (params ++ [default "" kernel_params])%list
                  else params in
    if bool_decide (boot_mode = Some "uefi") then
      located <-
        (if truthy deploy_iso_href then
           let deploy_iso_path := path_join tmpdir "iso" in
           fetch (default "" deploy_iso_href) deploy_iso_path false None None None;;
           ret (Some deploy_iso_path, None)
         else if truthy esp_image_href then
           let esp_image_path := path_join tmpdir "esp" in
           fetch (default "" esp_image_href) esp_image_path false None None None;;
           ret (None, Some esp_image_path)
         else if truthy esp_image then ret (None, esp_image)
         else ret (None, None));;
      create_esp_image_for_uefi output_filename kernel_path ramdisk_path
        located.1 located.2 (Some params) inject_files publisher_id
    else
      create_isolinux_image_for_bios output_filename kernel_path ramdisk_path
        (Some params) inject_files publisher_id).

End Bios.

(** ** Observations used in the statements *)

(** The events that are calls to something outside the process. *)
Definition is_external_call (e : event) : bool :=
  match e with
  | Log _ _ _ => false
  | _ => true
  end.

Definition external_calls (t : list event) : list event :=
  filter (λ e, is_external_call e = true) t.

(** [w'] differs from [w] by log lines only. *)
Definition only_logged (w w' : world) : Prop :=
  files w' = files w ∧ free_memory w' = free_memory w
  ∧ tmp_counter w' = tmp_counter w
  ∧ external_calls (trace w') = external_calls (trace w).

Section Sniff.
Context {W : InspectWrapper}.

(** What [detect_file_format] returns for a file with the given
    content, without the file access and the log line. *)
Definition detected (content : bytes) : outcome (option ImageFormatInfo) :=
  let wrapper := inspect_stream content in
  match wrapper_format wrapper with
  | Ok r => Ok r
  | Raised e =>
      if is_ImageFormatError e then
        let formats := default [] (wrapper_formats wrapper) in
        if bool_decide ((list_to_set (NAME <$> formats) : gset string) = {[ "iso"; "gpt" ]}) then
          match filter (λ x, NAME x = "iso") formats with
          | x :: _ => Ok (Some x)
          | [] => Raised IndexError
          end
        else Raised e
      else Raised e
  end.

(** What [get_source_format] returns for a file with the given content. *)
Definition source_format_of (content : bytes) : outcome string :=
  match detected content with
  | Ok (Some f) => Ok (NAME f)
  | Ok None => Raised ImageUnacceptable
  | Raised e => if is_ImageFormatError e then Raised ImageUnacceptable else Raised e
  end.

End Sniff.

(** The decision list for path-like sources as the specification
    words it, kept apart from [is_source_a_path] for comparison: html
    without a length is a listing, a non-html type with a length is a
    file, a URL ending in a slash is a listing, anything else is not. *)
Definition is_source_a_path_as_specified (probe : outcome response) : option bool :=
  match probe with
  | Raised _ => None
  | Ok res =>
      let headers := default ∅ (headers res) in
      let html := match headers !! "Content-Type" with
                  | Some ct => String.prefix "text/html" ct
                  | None => false
                  end in
      let typed := bool_decide (is_Some (headers !! "Content-Type")) in
      let sized := bool_decide (is_Some (headers !! "Content-Length")) in
      if html && negb sized then Some true
      else if typed && negb html && sized then Some false
      else if endswith (url res) "/" then Some true
      else Some false
  end.

(** ** Sample environments for the examples *)

Module Demo.

(** A classification engine that decides on the first byte once the
    stream is closed: Q qcow2, I iso, G gpt, H an ISO with a GPT in
    front, V both vmdk and vhd, anything else raw.  A second byte [!]
    marks content that fails its safety check. *)
Definition describe (name : string) (content : bytes) : ImageFormatInfo :=
  {| NAME := name;
     virtual_size := 4 * Z.of_nat (length content);
     actual_size := Z.of_nat (length content);
     safe := match content with
             | _ :: x21 :: _ => false
             | _ => true
             end |}.

Definition classify (content : bytes) : list ImageFormatInfo :=
  match content with
  | x51 :: _ => [describe "qcow2" content]
  | x49 :: _ => [describe "iso" content]
  | x47 :: _ => [describe "gpt" content]
  | x48 :: _ => [describe "gpt" content; describe "iso" content]
  | x56 :: _ => [describe "vmdk" content; describe "vhd" content]
  | _ => [describe "raw" content]
  end.

Definition marker_wrapper : InspectWrapper :=
  {| inspector_state := bytes * bool;
     wrapper_new := ([], false);
     wrapper_eat st chunk := (app st.1 chunk, st.2);
     wrapper_close st := (st.1, true);
     wrapper_formats st := if st.2 then Some (classify st.1) else None |}.

Definition drop_suffix (n : nat) (p : string) : string :=
  substring 0 (String.length p - n) p.

(** [zstd -d --rm X.zstd] strips the four magic bytes into [X] and
    removes its argument; a frame whose payload starts with a zero
    byte is corrupt and makes it exit non-zero, touching nothing. *)
Definition run_program (cmd : list string) (fs : gmap string bytes) : exec_result :=
  match cmd with
  | ["zstd"; "-d"; "--rm"; p] =>
      match fs !! p with
      | Some (x28 :: xb5 :: x2f :: xfd :: x00 :: _) => ExitNonZero fs
      | Some (x28 :: xb5 :: x2f :: xfd :: payload) =>
          Exit0 (<[drop_suffix 5 p := payload]> (delete p fs))
      | _ => ExitNonZero fs
      end
  | "mkisofs" :: _ => Exit0 fs
  | _ => SpawnFailed
  end.

(** A converter that rewrites the first byte to R (raw). *)
Definition tools : Tools :=
  {| spawn := run_program;
     qemu_img src _ _ := Converted (x52 :: drop 1 src);
     render_template template _ := template;
     iso_walk _ := Ok [("boot/grub/efiboot.img", [x45]); ("boot/grub/grub.cfg", [])] |}.

(** A host without the programs, and a converter that hands back its
    input unchanged. *)
Definition broken_tools : Tools :=
  {| spawn _ _ := SpawnFailed;
     qemu_img src _ _ := Converted src;
     render_template template _ := template;
     iso_walk _ := Raised OSError |}.

Definition settings (insecure : bool) : conf :=
  {| conductor := {| disable_deep_image_inspection := insecure;
                     permitted_image_formats := ["raw"; "qcow2"; "iso"];
                     disable_zstandard_decompression := false;
                     disable_file_checksum := false |};
     raw_image_growth_factor := 2 # 1;
     minimum_required_memory := 1024;
     grub_config_path := "/boot/grub/grub.cfg";
     grub_config_template := "grub.template" |}.

(** The same settings with a chosen list of permitted formats. *)
Definition permitting (insecure : bool) (formats : list string) : conf :=
  {| conductor := {| disable_deep_image_inspection := insecure;
                     permitted_image_formats := formats;
                     disable_zstandard_decompression := false;
                     disable_file_checksum := false |};
     raw_image_growth_factor := 2 # 1;
     minimum_required_memory := 1024;
     grub_config_path := "/boot/grub/grub.cfg";
     grub_config_template := "grub.template" |}.

Definition exact : Binary64 := {| round64 x := x |}.

Definition headers_of (l : list (string * string)) : option (gmap string string) :=
  Some (list_to_map l).

(** A web server: a directory index served as html with a length, a
    plain file, and a host that does not answer. *)
Definition web : ImageService :=
  {| get_image_service _ := Ok tt;
     validate_href href :=
       if String.eqb href "http://host/images" then
         Ok {| headers := headers_of [("Content-Type", "text/html"); ("Content-Length", "512")];
               url := "http://host/images" |}
       else if String.eqb href "http://host/disk.qcow2" then
         Ok {| headers := headers_of [("Content-Type", "application/octet-stream");
                                       ("Content-Length", "1048576")];
               url := "http://host/disk.qcow2" |}
       else if String.eqb href "http://host/dir" then
         Ok {| headers := headers_of []; url := "http://host/dir/" |}
       else Raised ImageRefValidationFailed |}.

Definition disk (l : list (string * bytes)) (mem : Z) : world :=
  {| files := list_to_map l; trace := []; tmp_counter := 0; free_memory := mem |}.

(** An image service that delivers a qcow2 image, a kernel and a
    ramdisk, breaks off one download after a single byte, and reports a
    transfer-verified checksum for one reference; checksum validation
    accepts only the checksum "good". *)
Definition transfer : ImageTransfer :=
  {| is_auth_set_needed _ := false;
     download href _ :=
       if String.eqb href "http://host/disk.qcow2" then ([x51; x01; x02], None)
       else if String.eqb href "http://host/verified.qcow2" then ([x51; x03], None)
       else if String.eqb href "http://host/kernel" then ([x4b], None)
       else if String.eqb href "http://host/ramdisk" then ([x52; x44], None)
       else ([x51], Some OSError);
     transfer_verified_checksum href :=
       if String.eqb href "http://host/verified.qcow2" then Some "abc" else None;
     show href :=
       if String.eqb href "glance-uuid" then
         Ok {| image_size := 3;
               image_properties := list_to_map [("kernel_id", "k-1"); ("ramdisk_id", "r-1")] |}
       else Raised ImageRefValidationFailed;
     validate_checksum _ checksum _ :=
       if String.eqb checksum "good" then Ok tt else Raised InvalidImage |}.

Definition references : References :=
  {| is_glance_image href := String.eqb href "glance-uuid";
     is_container_registry_url href := String.prefix "oci://" href |}.

Definition boot_settings : BootConf :=
  {| isolinux_bin := "/usr/lib/ISOLINUX/isolinux.bin";
     ldlinux_c32 := None;
     isolinux_config_template := "isolinux.template";
     esp_image := None |}.

End Demo.

(** * Properties *)

(** ** Running the monad *)

Ltac run :=
  repeat (progress (cbn [fst snd] in *;
                    unfold bind, ret, raise, log, tell, lift, try_except, try_except2,
                      try_finally, remove_path_on_error in *)).

Lemma files_emit e w : files (emit e w) = files w.
Proof. reflexivity. Qed.

Lemma trace_set_files f w : trace (set_files f w) = trace w.
Proof. reflexivity. Qed.

(** ** SafetyGate policy *)

Section Policy.
Context {CONF : conf}.

Lemma image_format_permitted_spec fmt :
  image_format_permitted fmt = true ↔
  fmt ∈ permitted_image_formats (conductor CONF)
  ∨ ("raw" ∈ permitted_image_formats (conductor CONF) ∧ (fmt = "raw" ∨ fmt = "gpt")).
Proof.
  unfold image_format_permitted, RAW_IMAGE_FORMATS.
  rewrite bool_decide_eq_true.
  case_bool_decide as Hraw; rewrite ?elem_of_union, ?elem_of_list_to_set in *;
    set_solver.
Qed.

Lemma image_format_matches_spec actual expected :
  image_format_matches actual expected = true ↔
  expected = actual ∨ (expected = "raw" ∧ (actual = "raw" ∨ actual = "gpt"))
  ∨ expected = "aki" ∨ expected = "ari".
Proof.
  unfold image_format_matches, RAW_IMAGE_FORMATS.
  repeat case_bool_decide; cbn [andb]; rewrite ?bool_decide_eq_true; set_solver.
Qed.

(** C1.  [check_if_image_format_is_permitted(fmt, expected)] returns
    normally exactly when [fmt] is in the permitted set (where "raw" in
    the configured list also admits "gpt") and [expected] is absent,
    equals [fmt], is "raw" with [fmt] raw or gpt, or is one of the
    legacy aliases "aki"/"ari"; in every other case it raises
    [InvalidImage]. *)
Theorem check_if_image_format_is_permitted_iff
    (fmt : string) (expected : option string) (node : option Node) (w : world) :
  let configured := permitted_image_formats (conductor CONF) in
  let permitted :=
    fmt ∈ configured ∨ ("raw" ∈ configured ∧ (fmt = "raw" ∨ fmt = "gpt")) in
  let matching :=
    expected = None ∨ expected = Some fmt
    ∨ (expected = Some "raw" ∧ (fmt = "raw" ∨ fmt = "gpt"))
    ∨ expected = Some "aki" ∨ expected = Some "ari" in
  ((check_if_image_format_is_permitted fmt expected node w).1 = Ok tt
     ↔ permitted ∧ matching)
  ∧ ((check_if_image_format_is_permitted fmt expected node w).1 = Raised InvalidImage
     ↔ ¬ (permitted ∧ matching)).
Proof.
  cbn zeta. unfold check_if_image_format_is_permitted.
  pose proof (image_format_permitted_spec fmt) as Hp.
  destruct (image_format_permitted fmt) eqn:Eperm; run.
  - destruct expected as [e|]; run.
    + pose proof (image_format_matches_spec fmt e) as Hm.
      destruct (image_format_matches fmt e); cbn; split; split;
        try done; try naive_solver.
    + cbn. split; split; try done; naive_solver.
  - split; split; try done; intros; naive_solver.
Qed.

End Policy.

(** ** FormatInspector *)

Lemma only_logged_refl w : only_logged w w.
Proof. by repeat split. Qed.

Lemma only_logged_trans w1 w2 w3 : only_logged w1 w2 → only_logged w2 w3 → only_logged w1 w3.
Proof. unfold only_logged. intros (-> & -> & -> & ->) (-> & -> & -> & ->). done. Qed.

Lemma only_logged_log lvl msg args w : only_logged w (emit (Log lvl msg args) w).
Proof.
  repeat split. cbn. unfold external_calls. rewrite filter_app. cbn.
  rewrite decide_False by done. by rewrite app_nil_r.
Qed.

Create HintDb logged.
#[local] Hint Resolve only_logged_refl only_logged_log : logged.

Section FormatInspectorFacts.
Context {W : InspectWrapper}.

(** The reading loop never runs out of rounds: any budget of at least
    [length rest] gives the same state. *)
Lemma read_windows_enough n m rest st :
  (length rest ≤ n)%nat → (length rest ≤ m)%nat →
  read_windows n rest st = read_windows m rest st.
Proof.
  revert m rest st. induction n as [|n IH]; intros m rest st Hn Hm.
  - destruct rest; [|cbn in Hn; lia]. by destruct m.
  - destruct rest as [|b rest]; [by destruct m|].
    destruct m as [|m]; [cbn in Hm; lia|].
    cbn [read_windows]. destruct (truthy_list _); [done|].
    apply IH; rewrite length_drop; cbn [length] in *; unfold window; lia.
Qed.

Lemma detect_file_format_run path content w :
  files w !! path = Some content →
  ∃ w', detect_file_format path w = (detected content, w') ∧ only_logged w w'.
Proof.
  intros Hf. unfold detect_file_format, detected, read_file. run. rewrite Hf.
  destruct (wrapper_format (inspect_stream content)) as [r|e]; [eauto with logged|].
  destruct (is_ImageFormatError e); [|eauto with logged].
  case_bool_decide; [|eauto with logged].
  destruct (filter _ _); eauto with logged.
Qed.

Lemma detect_file_format_missing path w :
  files w !! path = None →
  detect_file_format path w = (Raised FileNotFoundError, w).
Proof. intros Hf. unfold detect_file_format, read_file. run. by rewrite Hf. Qed.

Lemma get_source_format_run href path content w :
  files w !! path = Some content →
  ∃ w', get_source_format href path w = (source_format_of content, w') ∧ only_logged w w'.
Proof.
  intros Hf. unfold get_source_format, source_format_of. run.
  destruct (detect_file_format_run path content w Hf) as (w' & -> & Hw).
  destruct (detected content) as [[f|]|e]; [eauto| |].
  - eexists; split; [done|]. eauto using only_logged_trans with logged.
  - destruct (is_ImageFormatError e); [|eauto].
    eexists; split; [done|]. eauto using only_logged_trans with logged.
Qed.

Lemma get_source_format_missing href path w :
  files w !! path = None →
  get_source_format href path w = (Raised FileNotFoundError, w).
Proof.
  intros Hf. unfold get_source_format. run.
  by rewrite (detect_file_format_missing path w Hf).
Qed.

Lemma get_source_format_logs href path w r w' :
  get_source_format href path w = (r, w') → only_logged w w'.
Proof.
  destruct (files w !! path) as [c|] eqn:Hf.
  - destruct (get_source_format_run href path c w Hf) as (w1 & -> & Hw). by intros [= _ <-].
  - rewrite (get_source_format_missing href path w Hf). intros [= _ <-]. auto with logged.
Qed.

Lemma safety_check_image_logs path node w r w' :
  safety_check_image path node w = (r, w') → only_logged w w'.
Proof.
  unfold safety_check_image. run.
  destruct (files w !! path) as [c|] eqn:Hf.
  - destruct (detect_file_format_run path c w Hf) as (w1 & -> & Hw).
    destruct (detected c) as [[f|]|e]; cbn.
    + unfold safety_check. destruct (safe f); cbn; intros [= _ <-];
        eauto using only_logged_trans with logged.
    + intros [= _ <-]. eauto using only_logged_trans with logged.
    + destruct (is_ImageFormatError e); [|destruct (is_SafetyCheckFailed e)];
        intros [= _ <-]; eauto using only_logged_trans with logged.
  - rewrite (detect_file_format_missing path w Hf). cbn. intros [= _ <-]. auto with logged.
Qed.

(** When [safety_check_image] returns a name, the file exists, was
    classified as that format, and passed its safety check. *)
Lemma safety_check_image_ok path node w fmt w' :
  safety_check_image path node w = (Ok fmt, w') →
  ∃ content f, files w !! path = Some content ∧ detected content = Ok (Some f)
               ∧ NAME f = fmt ∧ safe f = true.
Proof.
  unfold safety_check_image. run.
  destruct (files w !! path) as [c|] eqn:Hf.
  - destruct (detect_file_format_run path c w Hf) as (w1 & -> & Hw).
    destruct (detected c) as [[f|]|e] eqn:Hd; cbn.
    + unfold safety_check. destruct (safe f) eqn:Hs; cbn; [|done].
      intros [= <- _]. eauto 10.
    + done.
    + by destruct (is_ImageFormatError e); [|destruct (is_SafetyCheckFailed e)].
  - by rewrite (detect_file_format_missing path w Hf).
Qed.

End FormatInspectorFacts.

Section Ambiguity.
Context {W : InspectWrapper}.

Lemma iso_gpt_names_two (candidates : list ImageFormatInfo) :
  (list_to_set (NAME <$> candidates) : gset string) = {[ "iso"; "gpt" ]} →
  (2 ≤ length candidates)%nat ∧ ∃ x, x ∈ candidates ∧ NAME x = "iso".
Proof.
  intros Hset.
  assert ("iso" ∈ NAME <$> candidates) as Hiso
    by (rewrite <- (elem_of_list_to_set (C := gset string)), Hset; set_solver).
  assert ("gpt" ∈ NAME <$> candidates) as Hgpt
    by (rewrite <- (elem_of_list_to_set (C := gset string)), Hset; set_solver).
  split.
  - destruct candidates as [|a [|b l]]; cbn; [| |lia].
    + by apply elem_of_nil in Hiso.
    + cbn in Hiso, Hgpt. apply list_elem_of_singleton in Hiso, Hgpt. congruence.
  - apply list_elem_of_fmap in Hiso as (x & Hx & Hin). eauto.
Qed.

(** C2.  When streaming classification of a file ends with several
    candidates whose names are exactly iso and gpt,
    [detect_file_format] returns the iso candidate; when it ends with
    two or more candidates of any other composition, the call raises
    the inspector's [ImageFormatError]. *)
Theorem detect_file_format_multiple_candidates
    (path : string) (content : bytes) (candidates : list ImageFormatInfo) (w : world) :
  files w !! path = Some content →
  wrapper_formats (inspect_stream content) = Some candidates →
  ((list_to_set (NAME <$> candidates) : gset string) = {[ "iso"; "gpt" ]} →
     ∃ iso, head (filter (λ x, NAME x = "iso") candidates) = Some iso
            ∧ NAME iso = "iso"
            ∧ (detect_file_format path w).1 = Ok (Some iso))
  ∧ ((2 ≤ length candidates)%nat →
     (list_to_set (NAME <$> candidates) : gset string) ≠ {[ "iso"; "gpt" ]} →
     (detect_file_format path w).1 = Raised ImageFormatError).
Proof.
  intros Hf Hc.
  destruct (detect_file_format_run path content w Hf) as (w' & -> & _). cbn [fst].
  unfold detected, wrapper_format. rewrite Hc. cbn [default].
  split.
  - intros Hset. destruct (iso_gpt_names_two candidates Hset) as (Hlen & x & Hin & Hx).
    destruct (Nat.ltb_spec 1 (length candidates)) as [_|]; [|lia]. cbn.
    rewrite bool_decide_eq_true_2 by done.
    assert (x ∈ filter (λ x, NAME x = "iso") candidates) as Hfil
      by (apply list_elem_of_filter; done).
    destruct (filter _ candidates) as [|y l] eqn:Efil; [by apply elem_of_nil in Hfil|].
    exists y. repeat split.
    assert (y ∈ filter (λ x, NAME x = "iso") candidates) as Hy
      by (rewrite Efil; left).
    by apply list_elem_of_filter in Hy as [? _].
  - intros Hlen Hset.
    destruct (Nat.ltb_spec 1 (length candidates)) as [_|]; [|lia]. cbn.
    by rewrite bool_decide_eq_false_2.
Qed.

End Ambiguity.

(** A hybrid image resolves to iso; vmdk together with vhd is refused. *)
Lemma detect_file_format_multiple_candidates_witness :
  (∃ iso, NAME iso = "iso"
          ∧ (detect_file_format (W := Demo.marker_wrapper) "/a.img"
               (Demo.disk [("/a.img", [x48; x01])] 0)).1 = Ok (Some iso))
  ∧ (detect_file_format (W := Demo.marker_wrapper) "/b.img"
       (Demo.disk [("/b.img", [x56; x01])] 0)).1 = Raised ImageFormatError.
Proof.
  split.
  - destruct (detect_file_format_multiple_candidates (W := Demo.marker_wrapper)
                "/a.img" [x48; x01] (Demo.classify [x48; x01])
                (Demo.disk [("/a.img", [x48; x01])] 0)) as [Hiso _];
      [reflexivity | reflexivity |].
    destruct Hiso as (iso & _ & Hname & Hres); [by vm_compute|]. eauto.
  - apply (detect_file_format_multiple_candidates (W := Demo.marker_wrapper)
             "/b.img" [x56; x01] (Demo.classify [x56; x01])
             (Demo.disk [("/b.img", [x56; x01])] 0));
      [reflexivity | reflexivity | cbn; lia |].
    vm_compute. intros H. discriminate H.
Defined.

(** ** ConversionPipeline *)

Lemma with_added_suffix_ne (p s : string) : s ≠ "" → with_added_suffix p s ≠ p.
Proof.
  unfold with_added_suffix. intros Hs Heq. apply Hs. clear Hs.
  induction p as [|a p IH]; cbn in Heq; [done|].
  injection Heq as Heq. auto.
Qed.

Section ConversionFacts.
Context {CONF : conf} {W : InspectWrapper} {T : Tools}.

Lemma image_to_raw_inspect_logs href path path_tmp w r w1 :
  image_to_raw_inspect href path path_tmp w = (r, w1) → only_logged w w1.
Proof.
  unfold image_to_raw_inspect.
  destruct (disable_deep_image_inspection (conductor CONF)); cbn [negb]; run.
  - destruct (get_source_format href path w) as [[fmt|e] w0] eqn:E;
      apply get_source_format_logs in E; intros [= _ <-];
      eauto using only_logged_trans with logged.
  - destruct (safety_check_image path_tmp None w) as [[fmt|e] w0] eqn:E;
      apply safety_check_image_logs in E; [|by intros [= _ <-]].
    destruct (image_format_permitted fmt); cbn; intros [= _ <-];
      eauto using only_logged_trans with logged.
Qed.

Lemma not_converted_formats (fmt : string) :
  fmt = "raw" ∨ fmt = "gpt" ∨ fmt = "iso" →
  bool_decide (fmt ∉ RAW_IMAGE_FORMATS) && bool_decide (fmt ≠ "iso") = false.
Proof. unfold RAW_IMAGE_FORMATS. intros [-> | [-> | ->]]; by vm_compute. Qed.

Lemma converted_formats (fmt : string) :
  fmt ≠ "raw" → fmt ≠ "gpt" → fmt ≠ "iso" →
  bool_decide (fmt ∉ RAW_IMAGE_FORMATS) && bool_decide (fmt ≠ "iso") = true.
Proof.
  unfold RAW_IMAGE_FORMATS. intros. apply andb_true_intro.
  rewrite !bool_decide_eq_true. set_solver.
Qed.


(** Once the inspection step has yielded raw, gpt or iso, the staging
    file is renamed into place and nothing else happens. *)
Lemma image_to_raw_rename_after_inspect
    (image_href path path_tmp fmt : string) (staged_bytes : bytes) (w w1 : world) :
  image_to_raw_inspect image_href path path_tmp w = (Ok fmt, w1) →
  fmt = "raw" ∨ fmt = "gpt" ∨ fmt = "iso" →
  files w !! path_tmp = Some staged_bytes →
  ∃ w', image_to_raw image_href path path_tmp w = (Ok tt, w')
        ∧ external_calls (trace w') = external_calls (trace w)
        ∧ files w' !! path = Some staged_bytes
        ∧ (path_tmp ≠ path → files w' !! path_tmp = None)
        ∧ (detect_file_format path w').1 = (detect_file_format path_tmp w).1.
Proof.
  intros Hi Hfmt Hstaged.
  pose proof (image_to_raw_inspect_logs _ _ _ _ _ _ Hi) as (Hfiles & _ & _ & Hcalls).
  unfold image_to_raw, image_to_raw_convert. run. rewrite Hi.
  rewrite (not_converted_formats fmt Hfmt). unfold rename. rewrite Hfiles, Hstaged.
  eexists. split; [done|]. cbn. rewrite Hfiles.
  assert (<[path:=staged_bytes]> (delete path_tmp (files w)) !! path = Some staged_bytes)
    as Hfinal by apply lookup_insert_eq.
  repeat split; [done|done| |].
  - intros Hne. by rewrite lookup_insert_ne, lookup_delete_eq.
  - destruct (detect_file_format_run path_tmp staged_bytes w Hstaged) as (? & -> & _).
    edestruct (detect_file_format_run path staged_bytes) as (? & -> & _); [|done].
    cbn. by rewrite Hfiles.
Qed.

(** C6.  When the inspection step of [image_to_raw] yields a format
    other than raw, gpt or iso and the available memory is below the
    configured minimum, the call raises [ImageConvertFailed] and no
    external call, in particular no converter run, has been made. *)
Theorem image_to_raw_memory_insufficient
    (image_href path path_tmp fmt : string) (w w1 : world) :
  image_to_raw_inspect image_href path path_tmp w = (Ok fmt, w1) →
  fmt ≠ "raw" → fmt ≠ "gpt" → fmt ≠ "iso" →
  (free_memory w < minimum_required_memory CONF)%Z →
  ∃ w', image_to_raw image_href path path_tmp w = (Raised ImageConvertFailed, w')
        ∧ external_calls (trace w') = external_calls (trace w).
Proof.
  intros Hi Hraw Hgpt Hiso Hmem.
  pose proof (image_to_raw_inspect_logs _ _ _ _ _ _ Hi) as (Hfiles & Hfree & _ & Hcalls).
  unfold image_to_raw, image_to_raw_convert. run. rewrite Hi.
  rewrite (converted_formats fmt) by done.
  unfold is_memory_insufficient. rewrite Hfree.
  destruct (Z.ltb_spec (free_memory w) (minimum_required_memory CONF)); [|lia].
  eexists. split; [done|]. done.
Qed.

End ConversionFacts.

Section ConversionOutcome.
Context {CONF : conf} {W : InspectWrapper} {T : Tools}.




End ConversionOutcome.



(** ** Deep inspection on and off *)

Section Inspection.
Context {CONF : conf} {W : InspectWrapper} {T : Tools}.

(** With deep inspection enabled, a format is only handed to the
    conversion step after the staged file passed its safety check and
    the format is permitted. *)
Lemma image_to_raw_inspect_enabled image_href path path_tmp fmt w w1 :
  disable_deep_image_inspection (conductor CONF) = false →
  image_to_raw_inspect image_href path path_tmp w = (Ok fmt, w1) →
  ∃ content f, files w !! path_tmp = Some content
               ∧ detected content = Ok (Some f)
               ∧ NAME f = fmt ∧ safe f = true
               ∧ image_format_permitted fmt = true.
Proof.
  intros Hon. unfold image_to_raw_inspect. rewrite Hon. cbn [negb]. run.
  destruct (safety_check_image path_tmp None w) as [[fmt'|e] w0] eqn:E; [|done].
  destruct (image_format_permitted fmt') eqn:Hperm; cbn; [|done].
  intros [= <- _].
  destruct (safety_check_image_ok _ _ _ _ _ E) as (content & f & ?); naive_solver.
Qed.

(** With deep inspection enabled, a staged file that is classified,
    passes its safety check and has a permitted format is handed to the
    second step under its own format name. *)
Lemma image_to_raw_inspect_enabled_run image_href path path_tmp content f w :
  disable_deep_image_inspection (conductor CONF) = false →
  files w !! path_tmp = Some content →
  detected content = Ok (Some f) →
  safe f = true →
  image_format_permitted (NAME f) = true →
  ∃ w1, image_to_raw_inspect image_href path path_tmp w = (Ok (NAME f), w1).
Proof.
  intros Hon Hf Hd Hsafe Hperm.
  unfold image_to_raw_inspect, safety_check_image, safety_check.
  rewrite Hon. cbn [negb]. run.
  destruct (detect_file_format_run path_tmp content w Hf) as (w0 & -> & _).
  rewrite Hd. cbn. rewrite Hsafe. cbn. rewrite Hperm. cbn. eauto.
Qed.

(** C4 (amended).  With deep inspection enabled, for a staged image
    whose own detected format is raw, gpt or iso, which passes its
    safety check and whose format is permitted: the converter is not
    invoked (no external call of any kind is made), the staging file is
    renamed to the final path, the final path holds exactly the staged
    bytes, and detection on the final path gives the format detected
    on the staged file. *)
Theorem image_to_raw_rename_only
    (image_href path path_tmp : string) (staged_bytes : bytes) (f : ImageFormatInfo)
    (w : world) :
  disable_deep_image_inspection (conductor CONF) = false →
  files w !! path_tmp = Some staged_bytes →
  detected staged_bytes = Ok (Some f) →
  NAME f = "raw" ∨ NAME f = "gpt" ∨ NAME f = "iso" →
  safe f = true →
  image_format_permitted (NAME f) = true →
  ∃ w', image_to_raw image_href path path_tmp w = (Ok tt, w')
        ∧ external_calls (trace w') = external_calls (trace w)
        ∧ files w' !! path = Some staged_bytes
        ∧ (path_tmp ≠ path → files w' !! path_tmp = None)
        ∧ (detect_file_format path w').1 = Ok (Some f)
        ∧ (detect_file_format path_tmp w).1 = Ok (Some f).
Proof.
  intros Hon Hstaged Hd Hfmt Hsafe Hperm.
  destruct (image_to_raw_inspect_enabled_run image_href path path_tmp staged_bytes f w)
    as (w1 & Hi); try done.
  destruct (image_to_raw_rename_after_inspect _ _ _ _ _ _ _ Hi Hfmt Hstaged)
    as (w' & Hrun & Hcalls & Hfinal & Htmp & Hsame).
  destruct (detect_file_format_run path_tmp staged_bytes w Hstaged) as (? & Hdet & _).
  rewrite Hdet in Hsame. cbn [fst] in Hsame. rewrite Hd in Hsame.
  exists w'. repeat split; try done. by rewrite Hdet.
Qed.

(** A rejection by the inspection step ends the call before any
    external program is run, and the staging file is removed. *)
Lemma image_to_raw_rejected image_href path path_tmp e w w1 :
  image_to_raw_inspect image_href path path_tmp w = (Raised e, w1) →
  ∃ w', image_to_raw image_href path path_tmp w = (Raised e, w')
        ∧ external_calls (trace w') = external_calls (trace w)
        ∧ files w' !! path_tmp = None.
Proof.
  intros Hi.
  pose proof (image_to_raw_inspect_logs _ _ _ _ _ _ Hi) as (_ & _ & _ & Hcalls).
  unfold image_to_raw. run. rewrite Hi. eexists. split; [done|].
  split; [done|]. apply lookup_delete_eq.
Qed.

(** With deep inspection disabled, the inspection step is
    [get_source_format] on [path] followed by the warning; neither the
    safety flag nor the permitted list is consulted. *)
Lemma image_to_raw_inspect_disabled image_href path path_tmp content fmt w :
  disable_deep_image_inspection (conductor CONF) = true →
  files w !! path = Some content →
  source_format_of content = Ok fmt →
  ∃ w1, image_to_raw_inspect image_href path path_tmp w = (Ok fmt, w1)
        ∧ last (trace w1)
          = Some (Log WARNING
                    "Security: Image safety checking has been disabled. This is unsafe operation."
                    [fmt; path]).
Proof.
  intros Hoff Hf Hfmt. unfold image_to_raw_inspect. rewrite Hoff. cbn [negb]. run.
  destruct (get_source_format_run image_href path content w Hf) as (w0 & -> & _).
  rewrite Hfmt. eexists. split; [done|]. cbn. apply last_snoc.
Qed.

End Inspection.

(** C8.  With deep inspection disabled, [image_to_raw] detects the
    format of the file at the final path, not of the staging file.  With
    a qcow2 image staged and nothing at the final path the call fails
    with [FileNotFoundError] before any warning is logged; with a stale
    raw file at the final path the staged qcow2 image is classified as
    raw and renamed into place unconverted. *)
Theorem image_to_raw_insecure_reads_final_path :
  let run w := image_to_raw (CONF := Demo.settings true) (W := Demo.marker_wrapper)
                 (T := Demo.tools) "href" "/img" "/img.part" w in
  let fresh := Demo.disk [("/img.part", [x51; x01; x02])] 4096 in
  let stale := Demo.disk [("/img.part", [x51; x01; x02]); ("/img", [x52; x09])] 4096 in
  source_format_of (W := Demo.marker_wrapper) [x51; x01; x02] = Ok "qcow2"
  ∧ (run fresh).1 = Raised FileNotFoundError
  ∧ trace (run fresh).2 = []
  ∧ (run stale).1 = Ok tt
  ∧ trace (run stale).2
    = [Log WARNING "Security: Image safety checking has been disabled. This is unsafe operation."
         ["raw"; "/img"]]
  ∧ files (run stale).2 !! "/img" = Some [x51; x01; x02]
  ∧ (get_source_format (W := Demo.marker_wrapper) "href" "/img" (run stale).2).1 = Ok "qcow2".
Proof. vm_compute. repeat split. Qed.

(** ** ChecksumGuard: the zstd wrapper *)

Section Zstd.
Context {CONF : conf} {T : Tools}.

(** What the call does once the magic number is seen and
    decompression is enabled, by outcome of the external program. *)
Lemma _handle_zstd_compression_run path content w :
  files w !! path = Some content →
  startswith (take 4 content) zstd_magic = true →
  disable_zstandard_decompression (conductor CONF) = false →
  let temp_path := with_added_suffix path ".zstd" in
  let moved := <[temp_path := content]> (delete path (files w)) in
  let r := _handle_zstd_compression path w in
  match spawn ["zstd"; "-d"; "--rm"; temp_path] moved with
  | Exit0 fs => r.1 = Ok tt ∧ files r.2 = fs
  | ExitNonZero fs => r.1 = Raised ProcessExecutionError ∧ files r.2 = fs
  | SpawnFailed => r.1 = Ok tt ∧ files r.2 !! path = Some content
                   ∧ files r.2 !! temp_path = None
  end.
Proof.
  intros Hf Hmagic Hon. cbn zeta.
  unfold _handle_zstd_compression, read_file, shutil_move, rename, execute. run.
  rewrite Hf, Hmagic, Hon. cbn [negb andb]. rewrite Hf. cbn [files set_files emit].
  destruct (spawn _ _) as [fs|fs|]; cbn; [done|done|].
  rewrite lookup_insert_eq. cbn. rewrite lookup_insert_eq.
  split; [done|]. split; [done|].
  assert (path ≠ with_added_suffix path ".zstd") as Hne
    by (intros Heq; by apply (with_added_suffix_ne path ".zstd")).
  rewrite lookup_insert_ne by done. apply lookup_delete_eq.
Qed.

End Zstd.

(** C5.  A file that starts with the zstd magic number but whose frame
    the decompressor rejects with a non-zero exit: the failure is a
    [ProcessExecutionError], which [except OSError] does not catch, so
    the call raises, nothing is moved back, and no file is left at the
    original path. *)
Theorem _handle_zstd_compression_nonzero_exit_not_restored :
  let original := [x28; xb5; x2f; xfd; x00; x07] in
  let w := Demo.disk [("/img", original)] 4096 in
  let r := _handle_zstd_compression (CONF := Demo.settings false) (T := Demo.tools) "/img" w in
  startswith (take 4 original) zstd_magic = true
  ∧ r.1 = Raised ProcessExecutionError
  ∧ files r.2 !! "/img" = None
  ∧ files r.2 !! "/img.zstd" = Some original
  ∧ trace r.2 = [Execute ["zstd"; "-d"; "--rm"; "/img.zstd"]].
Proof. vm_compute. repeat split. Qed.

(** The two outcomes the code does handle: a decompressor that runs
    leaves its output at the original path, and one that cannot be
    started has the download moved back. *)
Example _handle_zstd_compression_handled :
  let original := [x28; xb5; x2f; xfd; x51; x07] in
  let w := Demo.disk [("/img", original)] 4096 in
  let ok := _handle_zstd_compression (CONF := Demo.settings false) (T := Demo.tools) "/img" w in
  let absent :=
    _handle_zstd_compression (CONF := Demo.settings false) (T := Demo.broken_tools) "/img" w in
  ok.1 = Ok tt ∧ files ok.2 !! "/img" = Some [x51; x07] ∧ files ok.2 !! "/img.zstd" = None
  ∧ absent.1 = Ok tt ∧ files absent.2 !! "/img" = Some original.
Proof. vm_compute. repeat split. Qed.

(** ** BootMediaAssembler *)

Section Uefi.
Context {CONF : conf} {T : Tools}.

(** C7.  Called with both a deploy ISO and an ESP image, or with
    neither (an argument counts as given when it is a non-empty value),
    [create_esp_image_for_uefi] raises [ImageCreationFailed] and the
    trace is unchanged: no ISO extraction, no copy into the root tree
    and no mkisofs run has happened, and no file has been written. *)
Theorem create_esp_image_for_uefi_both_or_neither
    (output_file kernel ramdisk : string) (deploy_iso esp_image : option string)
    (kernel_params : option (list string)) (inject_files : option (list (source * string)))
    (publisher_id : option string) (w : world) :
  (truthy deploy_iso = true ∧ truthy esp_image = true)
  ∨ (truthy deploy_iso = false ∧ truthy esp_image = false) →
  ∃ w', create_esp_image_for_uefi output_file kernel ramdisk deploy_iso esp_image
          kernel_params inject_files publisher_id w = (Raised ImageCreationFailed, w')
        ∧ trace w' = trace w
        ∧ files w' ⊆ files w.
Proof.
  intros Hargs. unfold create_esp_image_for_uefi, tempdir, rmtree. run.
  assert (truthy deploy_iso && negb (truthy esp_image) = false) as ->
    by (destruct Hargs as [[-> ->]|[-> ->]]; done).
  assert (truthy esp_image && negb (truthy deploy_iso) = false) as ->
    by (destruct Hargs as [[-> ->]|[-> ->]]; done).
  cbn. eexists. split; [done|]. split; [done|].
  etrans; apply map_filter_subseteq.
Qed.

End Uefi.

Lemma create_esp_image_for_uefi_both_or_neither_witness :
  let w := Demo.disk [("/k", [x01]); ("/r", [x02]); ("/d.iso", [x49]); ("/esp.img", [x45])] 4096 in
  (∃ w', create_esp_image_for_uefi (CONF := Demo.settings false) (T := Demo.tools)
           "/out.iso" "/k" "/r" (Some "/d.iso") (Some "/esp.img") None None None w
         = (Raised ImageCreationFailed, w') ∧ trace w' = [])
  ∧ (∃ w', create_esp_image_for_uefi (CONF := Demo.settings false) (T := Demo.tools)
             "/out.iso" "/k" "/r" None None None None None w
           = (Raised ImageCreationFailed, w') ∧ trace w' = []).
Proof.
  intros w. split.
  - destruct (create_esp_image_for_uefi_both_or_neither
                (CONF := Demo.settings false) (T := Demo.tools)
                "/out.iso" "/k" "/r" (Some "/d.iso") (Some "/esp.img") None None None w)
      as (w' & Hrun & Htrace & _); [by left|]. eauto.
  - destruct (create_esp_image_for_uefi_both_or_neither
                (CONF := Demo.settings false) (T := Demo.tools)
                "/out.iso" "/k" "/r" None None None None None w)
      as (w' & Hrun & Htrace & _); [by right|]. eauto.
Defined.

(** With exactly one of the two given, the external steps do run. *)
Example create_esp_image_for_uefi_esp_only :
  let w := Demo.disk [("/k", [x01]); ("/r", [x02]); ("/esp.img", [x45])] 4096 in
  let r := create_esp_image_for_uefi (CONF := Demo.settings false) (T := Demo.tools)
             "/out.iso" "/k" "/r" None (Some "/esp.img") (Some ["nofb"; "quiet"]) None None w in
  r.1 = Ok tt
  ∧ external_calls (trace r.2)
    = [CopyFile "/k" "/tmp/tmp0/vmlinuz"; CopyFile "/r" "/tmp/tmp0/initrd";
       CopyFile "/esp.img" "/tmp/tmp0/boot/grub/efiboot.img";
       CopyFile "/dev/null" "/tmp/tmp0/boot/grub/grub.cfg";
       Execute ["mkisofs"; "-r"; "-V"; "VMEDIA_BOOT_ISO"; "-l"; "-e"; "boot/grub/efiboot.img";
                "-no-emul-boot"; "-o"; "/out.iso"; "/tmp/tmp0"]].
Proof. vm_compute. done. Qed.

Example create_esp_image_for_uefi_deploy_iso_only :
  let w := Demo.disk [("/k", [x01]); ("/r", [x02]); ("/d.iso", [x49])] 4096 in
  let r := create_esp_image_for_uefi (CONF := Demo.settings false) (T := Demo.tools)
             "/out.iso" "/k" "/r" (Some "/d.iso") None None None (Some "ironic") w in
  r.1 = Ok tt
  ∧ head (external_calls (trace r.2)) = Some (ExtractIso "/d.iso" "/tmp/tmp1")
  ∧ last (external_calls (trace r.2))
    = Some (Execute ["mkisofs"; "-r"; "-V"; "VMEDIA_BOOT_ISO"; "-l"; "-publisher"; "ironic";
                     "-e"; "boot/grub/efiboot.img"; "-no-emul-boot"; "-o"; "/out.iso";
                     "/tmp/tmp0"]).
Proof. vm_compute. done. Qed.

(** ** PolicyClassifier: path-like sources *)

Section PathSourceFacts.
Context {S : ImageService}.

Lemma not_html_prefix (ct : string) :
  String.prefix "text/html" ct = false → String.eqb ct "text/html" = false.
Proof.
  intros Hp. destruct (String.eqb_spec ct "text/html") as [->|]; [|done].
  by vm_compute in Hp.
Qed.

(** C9 (amended).  For a non-empty source for which an image service
    is found, [is_source_a_path] answers, in this order of precedence:
    None when the metadata probe raises; true when the Content-Type
    starts with text/html, whether or not a Content-Length is present;
    false when some other Content-Type comes with a Content-Length;
    true when the response URL ends with a slash; false otherwise. *)
Theorem is_source_a_path_precedence (image_source : string) (w : world) :
  image_source ≠ "" →
  get_image_service image_source = Ok tt →
  (is_source_a_path (Some image_source) w).1
  = Ok match validate_href image_source with
       | Raised _ => None
       | Ok res =>
           let headers := default ∅ (headers res) in
           match headers !! "Content-Type", headers !! "Content-Length" with
           | Some ct, sized =>
               if String.prefix "text/html" ct then Some true
               else if bool_decide (is_Some sized) then Some false
               else Some (endswith (url res) "/")
           | None, _ => Some (endswith (url res) "/")
           end
       end.
Proof.
  intros Hne Hsvc. unfold is_source_a_path.
  destruct image_source as [|a s]; [done|]. run. rewrite Hsvc.
  destruct (validate_href (String a s)) as [res|e]; [|done].
  cbn. destruct (default ∅ (headers res) !! "Content-Type") as [ct|] eqn:Hct.
  - destruct (String.prefix "text/html" ct) eqn:Hhtml; [done|].
    rewrite (not_html_prefix ct Hhtml). cbn [negb andb].
    case_bool_decide; [done|]. by destruct (endswith _ _).
  - by destruct (endswith _ _).
Qed.

End PathSourceFacts.

Lemma is_source_a_path_precedence_witness :
  (is_source_a_path (S := Demo.web) (Some "http://host/images") (Demo.disk [] 0)).1
  = Ok (Some true)
  ∧ (is_source_a_path (S := Demo.web) (Some "http://host/disk.qcow2") (Demo.disk [] 0)).1
    = Ok (Some false)
  ∧ (is_source_a_path (S := Demo.web) (Some "http://host/dir") (Demo.disk [] 0)).1
    = Ok (Some true)
  ∧ (is_source_a_path (S := Demo.web) (Some "http://down/x") (Demo.disk [] 0)).1 = Ok None.
Proof.
  split; [|split; [|split]].
  - rewrite (is_source_a_path_precedence (S := Demo.web) "http://host/images");
      [reflexivity | done | reflexivity].
  - rewrite (is_source_a_path_precedence (S := Demo.web) "http://host/disk.qcow2");
      [reflexivity | done | reflexivity].
  - rewrite (is_source_a_path_precedence (S := Demo.web) "http://host/dir");
      [reflexivity | done | reflexivity].
  - rewrite (is_source_a_path_precedence (S := Demo.web) "http://down/x");
      [reflexivity | done | reflexivity].
Defined.

(** A directory index served as text/html together with a
    Content-Length, at a URL without a trailing slash: the decision list
    as first stated answers false, the code answers true. *)
Lemma is_source_a_path_html_with_length_counterexample :
  let href := "http://host/images" in
  (∃ res, validate_href (ImageService := Demo.web) href = Ok res
          ∧ default ∅ (headers res) !! "Content-Type" = Some "text/html"
          ∧ default ∅ (headers res) !! "Content-Length" = Some "512"
          ∧ endswith (url res) "/" = false)
  ∧ is_source_a_path_as_specified (validate_href (ImageService := Demo.web) href) = Some false
  ∧ (is_source_a_path (S := Demo.web) (Some href) (Demo.disk [] 0)).1 = Ok (Some true)
  ∧ (is_source_a_path (S := Demo.web) (Some href) (Demo.disk [] 0)).1
    ≠ Ok (is_source_a_path_as_specified (validate_href (ImageService := Demo.web) href)).
Proof.
  cbn zeta. split; [eexists; split; [reflexivity|]; by vm_compute|].
  split; [by vm_compute|]. split; [by vm_compute|]. by vm_compute.
Qed.

(** ** Size estimation *)

Lemma quot_le_of_le (n v : Z) (d : positive) :
  (n ≤ v * Z.pos d)%Z → (Z.quot n (Z.pos d) ≤ v)%Z.
Proof.
  intros Hle. destruct (Z.le_gt_cases 0 n) as [Hn|Hn].
  - rewrite Z.quot_div_nonneg by lia. apply Z.div_le_upper_bound; [lia|]. rewrite Z.mul_comm. exact Hle.
  - replace n with (- - n)%Z by lia. rewrite Z.quot_opp_l by lia.
    rewrite Z.quot_div_nonneg by lia.
    assert (- v ≤ (- n) `div` Z.pos d)%Z; [|lia].
    apply Z.div_le_lower_bound; [lia|]. rewrite Z.mul_comm, Z.mul_opp_l. lia.
Qed.

Lemma py_int_min_le (x : Q) (v : Z) : (py_int (min_float_int x v) ≤ v)%Z.
Proof.
  unfold min_float_int. destruct (Qlt_le_dec (inject_Z v) x) as [_|Hle]; cbn; [lia|].
  apply quot_le_of_le. unfold Qle in Hle. cbn in Hle. lia.
Qed.

Section SizeFacts.
Context {CONF : conf} {W : InspectWrapper} {F : Binary64}.

(** C10.  For a file that the inspector classifies,
    [converted_size(path)] is the virtual size, and
    [converted_size(path, estimate=True)] is
    [int(min(actual_size * raw_image_growth_factor, virtual_size))],
    which is never more than the virtual size. *)
Theorem converted_size_spec
    (path : string) (content : bytes) (data : ImageFormatInfo) (w : world) :
  files w !! path = Some content →
  detected content = Ok (Some data) →
  (converted_size path false w).1 = Ok (virtual_size data)
  ∧ ∃ n, (converted_size path true w).1 = Ok n
         ∧ n = py_int (min_float_int
                         (int_mul_float (actual_size data) (raw_image_growth_factor CONF))
                         (virtual_size data))
         ∧ (n ≤ virtual_size data)%Z.
Proof.
  intros Hf Hd. unfold converted_size. run.
  destruct (detect_file_format_run path content w Hf) as (w' & -> & _). rewrite Hd.
  cbn. split; [done|]. eexists. split; [done|]. split; [done|]. apply py_int_min_le.
Qed.

End SizeFacts.

Lemma converted_size_spec_witness :
  let w := Demo.disk [("/a.qcow2", [x51; x01; x02]); ("/b.qcow2", [x51])] 0 in
  (converted_size (CONF := Demo.settings false) (W := Demo.marker_wrapper) (F := Demo.exact)
     "/a.qcow2" false w).1 = Ok 12%Z
  ∧ (converted_size (CONF := Demo.settings false) (W := Demo.marker_wrapper) (F := Demo.exact)
       "/a.qcow2" true w).1 = Ok 6%Z.
Proof.
  intros w.
  destruct (converted_size_spec (CONF := Demo.settings false) (W := Demo.marker_wrapper)
              (F := Demo.exact) "/a.qcow2" [x51; x01; x02]
              (Demo.describe "qcow2" [x51; x01; x02]) w)
    as (Hexact & n & Hest & Hn & _); [reflexivity | reflexivity |].
  split; [exact Hexact|]. rewrite Hest, Hn. reflexivity.
Defined.

(** ** Worked instances of the conversion properties *)

(** An ISO passes through unconverted and still detects as iso. *)
Lemma image_to_raw_rename_only_witness :
  let w := Demo.disk [("/boot.iso.part", [x49; x01; x02])] 4096 in
  ∃ w', image_to_raw (CONF := Demo.settings false) (W := Demo.marker_wrapper)
          (T := Demo.tools) "href" "/boot.iso" "/boot.iso.part" w = (Ok tt, w')
        ∧ external_calls (trace w') = []
        ∧ files w' !! "/boot.iso" = Some [x49; x01; x02]
        ∧ files w' !! "/boot.iso.part" = None
        ∧ (detect_file_format (W := Demo.marker_wrapper) "/boot.iso" w').1
          = Ok (Some (Demo.describe "iso" [x49; x01; x02])).
Proof.
  intros w.
  destruct (image_to_raw_rename_only
              (CONF := Demo.settings false) (W := Demo.marker_wrapper) (T := Demo.tools)
              "href" "/boot.iso" "/boot.iso.part" [x49; x01; x02]
              (Demo.describe "iso" [x49; x01; x02]) w)
    as (w' & Hrun & Hcalls & Hfinal & Hstaging & Hdetect & _);
    [reflexivity | reflexivity | reflexivity | by right; right | reflexivity | reflexivity |].
  exists w'. split; [exact Hrun|]. split; [exact Hcalls|]. split; [exact Hfinal|].
  split; [by apply Hstaging|exact Hdetect].
Defined.

(** The claim as first stated promises the rename for every staged
    image that detects as raw, gpt or iso.  A staged ISO is refused when
    iso is not a permitted format, and when it fails its safety check;
    in both cases nothing arrives at the final path.  With deep
    inspection disabled the staged file is not the one inspected, and
    with nothing at the final path the call fails as well. *)
Lemma image_to_raw_rename_only_counterexample :
  let staged := [x49; x01; x02] in
  let unsafe := [x49; x21; x02] in
  let run (CONF : conf) (content : bytes) :=
    image_to_raw (CONF := CONF) (W := Demo.marker_wrapper) (T := Demo.tools)
      "href" "/boot.iso" "/boot.iso.part" (Demo.disk [("/boot.iso.part", content)] 4096) in
  source_format_of (W := Demo.marker_wrapper) staged = Ok "iso"
  ∧ source_format_of (W := Demo.marker_wrapper) unsafe = Ok "iso"
  ∧ ((run (Demo.permitting false ["raw"; "qcow2"]) staged).1 = Raised InvalidImage
     ∧ files (run (Demo.permitting false ["raw"; "qcow2"]) staged).2 !! "/boot.iso" = None)
  ∧ ((run (Demo.settings false) unsafe).1 = Raised InvalidImage
     ∧ files (run (Demo.settings false) unsafe).2 !! "/boot.iso" = None)
  ∧ ((run (Demo.settings true) staged).1 = Raised FileNotFoundError
     ∧ files (run (Demo.settings true) staged).2 !! "/boot.iso" = None)
  ∧ ¬ ((run (Demo.permitting false ["raw"; "qcow2"]) staged).1 = Ok tt
       ∧ files (run (Demo.permitting false ["raw"; "qcow2"]) staged).2 !! "/boot.iso"
         = Some staged).
Proof.
  vm_compute. repeat split; try done. intros [H _]. discriminate H.
Qed.

(** A qcow2 image on a host with 512 units free where 1024 are required. *)
Lemma image_to_raw_memory_insufficient_witness :
  let w := Demo.disk [("/img.part", [x51; x01; x02])] 512 in
  ∃ w', image_to_raw (CONF := Demo.settings false) (W := Demo.marker_wrapper)
          (T := Demo.tools) "href" "/img" "/img.part" w = (Raised ImageConvertFailed, w')
        ∧ external_calls (trace w') = [].
Proof.
  intros w.
  apply (image_to_raw_memory_insufficient
           (CONF := Demo.settings false) (W := Demo.marker_wrapper) (T := Demo.tools)
           "href" "/img" "/img.part" "qcow2" w
           (image_to_raw_inspect (CONF := Demo.settings false) (W := Demo.marker_wrapper)
              "href" "/img" "/img.part" w).2);
    [reflexivity | done | done | done | done].
Defined.

(** * Further properties *)

(** ** ConversionPipeline: what [image_to_raw] leaves behind *)

Lemma external_calls_log lvl msg args w :
  external_calls (trace (emit (Log lvl msg args) w)) = external_calls (trace w).
Proof. apply only_logged_log. Qed.

Lemma external_calls_call e w :
  is_external_call e = true →
  external_calls (trace (emit e w)) = (external_calls (trace w) ++ [e])%list.
Proof.
  intros He. cbn. unfold external_calls. rewrite filter_app. cbn.
  by rewrite decide_True.
Qed.

Section ConversionEffects.
Context {CONF : conf} {W : InspectWrapper} {T : Tools}.

(** Every way the second step of [image_to_raw] can end, as a final
    file map and the external calls made. *)
Lemma image_to_raw_convert_cases image_href path path_tmp fmt w r w' :
  image_to_raw_convert image_href path path_tmp fmt w = (r, w') →
  let staged := with_added_suffix path ".converted" in
  (external_calls (trace w') = external_calls (trace w)
   ∧ ((∃ e, r = Raised e ∧ files w' = files w)
      ∨ (∃ b, r = Ok tt ∧ files w !! path_tmp = Some b
              ∧ files w' = <[path := b]> (delete path_tmp (files w)))))
  ∨ (external_calls (trace w')
     = (external_calls (trace w) ++ [ConvertImage path_tmp staged "raw" fmt])%list
     ∧ ((∃ e, r = Raised e
              ∧ (files w' = delete staged (files w)
                 ∨ ∃ out, files w' = delete staged (delete path_tmp
                                       (<[staged := out]> (files w)))))
        ∨ (∃ out c, r = Ok tt
                    ∧ files w' = <[path := c]> (delete staged (delete path_tmp
                                    (<[staged := out]> (files w))))))).
Proof.
  cbn zeta. unfold image_to_raw_convert.
  destruct (bool_decide (fmt ∉ RAW_IMAGE_FORMATS) && bool_decide (fmt ≠ "iso")).
  - unfold is_memory_insufficient, convert_image, unlink, rename. run.
    destruct (free_memory w <? minimum_required_memory CONF)%Z.
    { intros [= <- <-]. left. split; [done|]. left. eauto. }
    cbn [files emit].
    set (call := ConvertImage path_tmp (with_added_suffix path ".converted") "raw" fmt).
    set (w2 := emit call (emit _ w)).
    assert (external_calls (trace w2) = (external_calls (trace w) ++ [call])%list) as Hcall.
    { unfold w2. rewrite external_calls_call by done. by rewrite external_calls_log. }
    destruct (files w !! path_tmp) as [src|] eqn:Hsrc.
    2:{ intros [= <- <-]. right. split; [done|]. left. eexists; split; [done|]. by left. }
    destruct (qemu_img src fmt "raw") as [out|[part|]].
    2:{ intros [= <- <-]. right. split; [done|]. left. eexists; split; [done|]. left.
        cbn. apply delete_insert_eq. }
    2:{ intros [= <- <-]. right. split; [done|]. left. eexists; split; [done|]. by left. }
    cbn [files set_files emit]. change (files w2) with (files w).
    destruct (<[with_added_suffix path ".converted":=out]> (files w) !! path_tmp) eqn:Htmp.
    2:{ destruct (decide (with_added_suffix path ".converted" = path_tmp)) as [<-|Hne].
        - by rewrite lookup_insert_eq in Htmp.
        - rewrite lookup_insert_ne in Htmp by done. congruence. }
    cbv beta iota zeta.
    match goal with
    | |- context [get_source_format _ ?p ?w0] =>
        destruct (get_source_format image_href p w0) as [[new_fmt|e] w6] eqn:Hget
    end;
    apply get_source_format_logs in Hget; destruct Hget as (Hfiles & _ & _ & Hcalls);
    cbn [files trace set_files] in Hfiles, Hcalls.
    2:{ intros [= <- <-]. right. cbn [files trace set_files]. rewrite Hcalls, Hfiles. split; [done|].
        left. eexists; split; [done|]. right. eauto. }
    case_bool_decide; cbn.
    { intros [= <- <-]. right. cbn [files trace set_files]. rewrite Hcalls, Hfiles. split; [done|].
      left. eexists; split; [done|]. right. eauto. }
    destruct (files w6 !! with_added_suffix path ".converted") as [c|] eqn:Hc.
    + intros [= <- <-]. right. cbn [files trace set_files]. rewrite Hcalls, Hfiles. split; [done|].
      right. eauto.
    + intros [= <- <-]. right. cbn [files trace set_files]. rewrite Hcalls, Hfiles. split; [done|].
      left. eexists; split; [done|]. right. eauto.
  - unfold rename. destruct (files w !! path_tmp) as [b|] eqn:Hb.
    + intros [= <- <-]. left. split; [done|]. right. eauto.
    + intros [= <- <-]. left. split; [done|]. left. eauto.
Qed.

Lemma image_to_raw_inv image_href path path_tmp w r w' :
  image_to_raw image_href path path_tmp w = (r, w') →
  (∃ e w1, image_to_raw_inspect image_href path path_tmp w = (Raised e, w1)
           ∧ r = Raised e ∧ w' = set_files (delete path_tmp) w1)
  ∨ (∃ fmt w1 r2 w2,
       image_to_raw_inspect image_href path path_tmp w = (Ok fmt, w1)
       ∧ image_to_raw_convert image_href path path_tmp fmt w1 = (r2, w2)
       ∧ r = r2
       ∧ w' = match r2 with
              | Ok _ => w2
              | Raised _ => set_files (delete path_tmp) w2
              end).
Proof.
  unfold image_to_raw. run.
  destruct (image_to_raw_inspect image_href path path_tmp w) as [[fmt|e] w1].
  - destruct (image_to_raw_convert image_href path path_tmp fmt w1) as [[[]|e] w2] eqn:Hc;
      intros [= <- <-]; right; eauto 10.
  - intros [= <- <-]. left. eauto.
Qed.

Lemma image_to_raw_failure_files image_href path path_tmp e w w' :
  image_to_raw image_href path path_tmp w = (Raised e, w') →
  files w' !! path_tmp = None
  ∧ (path ≠ path_tmp → files w' !! path = files w !! path)
  ∧ (files w !! with_added_suffix path ".converted" = None →
     files w' !! with_added_suffix path ".converted" = None).
Proof.
  intros Hrun.
  assert (with_added_suffix path ".converted" ≠ path) as Hstaged
    by (by apply with_added_suffix_ne).
  set (staged := with_added_suffix path ".converted") in *.
  assert (∀ m : gmap string bytes, delete path_tmp m !! path_tmp = None) as Htmp
    by (intros; apply lookup_delete_eq).
  apply image_to_raw_inv in Hrun
    as [(e' & w1 & Hi & _ & ->)|(fmt & w1 & r2 & w2 & Hi & Hc & <- & ->)];
    apply image_to_raw_inspect_logs in Hi as (Hfiles & _).
  - cbn [files set_files]. rewrite Hfiles. split; [done|].
    split; intros; destruct (decide (path_tmp = staged)); by simplify_map_eq.
  - cbn [files set_files]. split; [done|].
    apply image_to_raw_convert_cases in Hc
      as [(_ & [(? & _ & ->)|(? & ? & _)])|(_ & [(? & _ & [->| [out ->]])|(? & ? & ? & _)])];
      try done; fold staged; rewrite Hfiles;
      (split; intros; destruct (decide (path_tmp = staged)); by simplify_map_eq).
Qed.

(** When [image_to_raw] raises, whatever the cause: the staging file is
    gone, the final path holds what it held before the call, and no
    [.converted] file has been left behind. *)
Theorem image_to_raw_failure_leaves_no_partial_artifact
    (image_href path path_tmp : string) (e : exn) (w w' : world) :
  image_to_raw image_href path path_tmp w = (Raised e, w') →
  files w' !! path_tmp = None
  ∧ (path ≠ path_tmp → files w' !! path = files w !! path)
  ∧ (files w !! with_added_suffix path ".converted" = None →
     files w' !! with_added_suffix path ".converted" = None).
Proof.
  apply image_to_raw_failure_files.
Qed.

(** [image_to_raw] reads and writes three paths only: the final path,
    the staging path and the final path with [.converted] appended.
    Every other file is the same after the call, however it ends. *)
Theorem image_to_raw_touches_three_paths
    (image_href path path_tmp other : string) (r : outcome unit) (w w' : world) :
  image_to_raw image_href path path_tmp w = (r, w') →
  other ≠ path → other ≠ path_tmp → other ≠ with_added_suffix path ".converted" →
  files w' !! other = files w !! other.
Proof.
  intros Hrun H1 H2 H3.
  apply image_to_raw_inv in Hrun
    as [(e' & w1 & Hi & _ & ->)|(fmt & w1 & r2 & w2 & Hi & Hc & <- & ->)];
    apply image_to_raw_inspect_logs in Hi as (Hfiles & _).
  - cbn [files set_files]. by rewrite lookup_delete_ne, Hfiles.
  - apply image_to_raw_convert_cases in Hc
      as [(_ & [(? & -> & Hf)|(? & -> & _ & Hf)])
         |(_ & [(? & -> & [Hf| [out Hf]])|(? & ? & -> & Hf)])];
      cbn [files set_files]; rewrite Hf, Hfiles;
      rewrite ?lookup_delete_ne, ?lookup_insert_ne, ?lookup_delete_ne by done;
      rewrite ?lookup_insert_ne, ?lookup_delete_ne by done; done.
Qed.

(** When [image_to_raw] returns normally there is a file at the final
    path and, unless the two paths coincide, none at the staging path. *)
Theorem image_to_raw_success_promotes
    (image_href path path_tmp : string) (w w' : world) :
  image_to_raw image_href path path_tmp w = (Ok tt, w') →
  is_Some (files w' !! path) ∧ (path_tmp ≠ path → files w' !! path_tmp = None).
Proof.
  intros Hrun.
  apply image_to_raw_inv in Hrun
    as [(e' & w1 & Hi & ? & _)|(fmt & w1 & r2 & w2 & Hi & Hc & <- & ->)]; [done|].
  apply image_to_raw_convert_cases in Hc
    as [(_ & [(? & ? & _)|(? & _ & _ & ->)])
       |(_ & [(? & ? & _)|(? & ? & _ & ->)])]; try done.
  - rewrite lookup_insert_eq. split; [done|]. intros Hne.
    by rewrite lookup_insert_ne, lookup_delete_eq.
  - rewrite lookup_insert_eq. split; [done|]. intros Hne.
    rewrite lookup_insert_ne by done.
    destruct (decide (path_tmp = with_added_suffix path ".converted")) as [->|Hd].
    + apply lookup_delete_eq.
    + by rewrite lookup_delete_ne, lookup_delete_eq.
Qed.

(** The only external program [image_to_raw] can start is the
    converter, at most once, from the staging path to the [.converted]
    path with target format raw. *)
Theorem image_to_raw_runs_at_most_one_conversion
    (image_href path path_tmp : string) (r : outcome unit) (w w' : world) :
  image_to_raw image_href path path_tmp w = (r, w') →
  external_calls (trace w') = external_calls (trace w)
  ∨ ∃ fmt, external_calls (trace w')
           = (external_calls (trace w)
              ++ [ConvertImage path_tmp (with_added_suffix path ".converted") "raw" fmt])%list.
Proof.
  intros Hrun.
  apply image_to_raw_inv in Hrun
    as [(e' & w1 & Hi & _ & ->)|(fmt & w1 & r2 & w2 & Hi & Hc & <- & ->)];
    apply image_to_raw_inspect_logs in Hi as (_ & _ & _ & Hcalls).
  - by left.
  - assert (external_calls (trace match r with
                                   | Ok _ => w2
                                   | Raised _ => set_files (delete path_tmp) w2
                                   end) = external_calls (trace w2)) as ->
      by (by destruct r).
    apply image_to_raw_convert_cases in Hc as [(-> & _)|(-> & _)]; rewrite Hcalls; eauto.
Qed.

(** With deep inspection enabled, [image_to_raw] returns normally only
    for a staged file that was classified, passed its safety check and
    has a permitted format. *)
Theorem image_to_raw_success_implies_checked
    (image_href path path_tmp : string) (w w' : world) :
  disable_deep_image_inspection (conductor CONF) = false →
  image_to_raw image_href path path_tmp w = (Ok tt, w') →
  ∃ content f, files w !! path_tmp = Some content
               ∧ detected content = Ok (Some f)
               ∧ safe f = true
               ∧ image_format_permitted (NAME f) = true.
Proof.
  intros Hon Hrun.
  apply image_to_raw_inv in Hrun
    as [(e' & w1 & Hi & ? & _)|(fmt & w1 & r2 & w2 & Hi & _)]; [done|].
  destruct (image_to_raw_inspect_enabled _ _ _ _ _ _ Hon Hi)
    as (content & f & ? & ? & <- & ? & ?).
  eauto 10.
Qed.

End ConversionEffects.

(** A refused conversion next to an older file at the final path. *)
Lemma image_to_raw_failure_leaves_no_partial_artifact_witness :
  let w := Demo.disk [("/img.part", [x51; x01; x02]); ("/img", [x52; x09])] 4096 in
  let r := image_to_raw (CONF := Demo.settings false) (W := Demo.marker_wrapper)
             (T := Demo.broken_tools) "href" "/img" "/img.part" w in
  r.1 = Raised ImageConvertFailed
  ∧ files r.2 !! "/img.part" = None
  ∧ files r.2 !! "/img" = Some [x52; x09]
  ∧ files r.2 !! "/img.converted" = None.
Proof.
  intros w r.
  destruct (image_to_raw_failure_leaves_no_partial_artifact
              (CONF := Demo.settings false) (W := Demo.marker_wrapper)
              (T := Demo.broken_tools) "href" "/img" "/img.part" ImageConvertFailed w r.2)
    as (Htmp & Hfinal & Hconv); [reflexivity|].
  split; [reflexivity|]. split; [exact Htmp|].
  split; [by rewrite Hfinal|]. by apply Hconv.
Defined.

Lemma image_to_raw_touches_three_paths_witness :
  let w := Demo.disk [("/img.part", [x51; x01; x02]); ("/other", [x07])] 4096 in
  let r := image_to_raw (CONF := Demo.settings false) (W := Demo.marker_wrapper)
             (T := Demo.tools) "href" "/img" "/img.part" w in
  r.1 = Ok tt ∧ files r.2 !! "/other" = Some [x07].
Proof.
  intros w r. split; [reflexivity|].
  rewrite (image_to_raw_touches_three_paths
             (CONF := Demo.settings false) (W := Demo.marker_wrapper) (T := Demo.tools)
             "href" "/img" "/img.part" "/other" r.1 w r.2); [reflexivity|reflexivity|done..].
Defined.

Lemma image_to_raw_success_promotes_witness :
  let w := Demo.disk [("/img.part", [x51; x01; x02])] 4096 in
  let r := image_to_raw (CONF := Demo.settings false) (W := Demo.marker_wrapper)
             (T := Demo.tools) "href" "/img" "/img.part" w in
  is_Some (files r.2 !! "/img") ∧ files r.2 !! "/img.part" = None.
Proof.
  intros w r.
  destruct (image_to_raw_success_promotes
              (CONF := Demo.settings false) (W := Demo.marker_wrapper) (T := Demo.tools)
              "href" "/img" "/img.part" w r.2) as [Hfinal Htmp]; [reflexivity|].
  split; [exact Hfinal|]. by apply Htmp.
Defined.

Lemma image_to_raw_runs_at_most_one_conversion_witness :
  let w := Demo.disk [("/img.part", [x51; x01; x02])] 4096 in
  let r := image_to_raw (CONF := Demo.settings false) (W := Demo.marker_wrapper)
             (T := Demo.tools) "href" "/img" "/img.part" w in
  external_calls (trace r.2) = []
  ∨ ∃ fmt, external_calls (trace r.2) = [ConvertImage "/img.part" "/img.converted" "raw" fmt].
Proof.
  intros w r.
  exact (image_to_raw_runs_at_most_one_conversion
           (CONF := Demo.settings false) (W := Demo.marker_wrapper) (T := Demo.tools)
           "href" "/img" "/img.part" r.1 w r.2 eq_refl).
Defined.

Lemma image_to_raw_success_implies_checked_witness :
  let w := Demo.disk [("/img.part", [x51; x01; x02])] 4096 in
  ∃ content f, files w !! "/img.part" = Some content
               ∧ detected (W := Demo.marker_wrapper) content = Ok (Some f)
               ∧ safe f = true
               ∧ image_format_permitted (CONF := Demo.settings false) (NAME f) = true.
Proof.
  intros w.
  exact (image_to_raw_success_implies_checked
           (CONF := Demo.settings false) (W := Demo.marker_wrapper) (T := Demo.tools)
           "href" "/img" "/img.part" w
           (image_to_raw (CONF := Demo.settings false) (W := Demo.marker_wrapper)
              (T := Demo.tools) "href" "/img" "/img.part" w).2 eq_refl eq_refl).
Defined.

(** ** Detection helpers *)

Section DetectionEffects.
Context {CONF : conf} {W : InspectWrapper} {T : Tools}.

Lemma detect_file_format_raises path e w w' :
  detect_file_format path w = (Raised e, w') →
  e = FileNotFoundError ∨ e = ImageFormatError ∨ e = IndexError.
Proof.
  unfold detect_file_format, read_file, wrapper_format. run.
  destruct (files w !! path); [|intros [= <- _]; by left].
  destruct (wrapper_formats _) as [fs|]; [|done].
  destruct (1 <? length fs)%nat.
  - cbn [is_ImageFormatError default]. case_bool_decide.
    + destruct (filter _ _); [|done]. intros [= <- _]. by right; right.
    + intros [= <- _]. by right; left.
  - destruct fs; [|done]. intros [= <- _]. by right; right.
Qed.

(** [get_source_format] turns the inspector's [ImageFormatError] and an
    undecided format into [ImageUnacceptable] with an error line in the
    log; the inspector's own error never reaches the caller, and the
    files are not modified. *)
Theorem get_source_format_wraps_format_errors
    (image_href path : string) (r : outcome string) (w w' : world) :
  get_source_format image_href path w = (r, w') →
  r ≠ Raised ImageFormatError
  ∧ files w' = files w
  ∧ (r = Raised ImageUnacceptable →
     ∃ msg, last (trace w') = Some (Log ERROR msg [image_href])).
Proof.
  intros Hrun. split; [|split].
  - intros ->. revert Hrun. unfold get_source_format. run.
    destruct (detect_file_format path w) as [[[f|]|e] w1]; cbn; [done|done|].
    by destruct e.
  - by apply get_source_format_logs in Hrun as (? & _).
  - intros ->. revert Hrun. unfold get_source_format. run.
    destruct (detect_file_format path w) as [[[f|]|e] w1] eqn:Hd; cbn; [done| |].
    + intros [= <-]. eexists. cbn. apply last_snoc.
    + apply detect_file_format_raises in Hd as [->|[->| ->]]; cbn; [done| |done].
      intros [= <-]. eexists. cbn. apply last_snoc.
Qed.

(** [force_raw_will_convert] answers from the detected format alone: it
    is false for raw and gpt and true for everything else, iso included,
    although [image_to_raw] never converts an iso.  The file is left in
    place. *)
Theorem force_raw_will_convert_answer
    (image_href path_tmp fmt : string) (content : bytes) (w : world) :
  files w !! path_tmp = Some content →
  source_format_of content = Ok fmt →
  ∃ w', force_raw_will_convert image_href path_tmp w
        = (Ok (negb (String.eqb fmt "raw" || String.eqb fmt "gpt")), w')
        ∧ files w' = files w
        ∧ external_calls (trace w') = external_calls (trace w).
Proof.
  intros Hf Hfmt. unfold force_raw_will_convert. run.
  destruct (get_source_format_run image_href path_tmp content w Hf)
    as (w1 & -> & Hfiles & _ & _ & Hcalls).
  rewrite Hfmt. eexists. split; [|done]. do 2 f_equal.
  unfold RAW_IMAGE_FORMATS.
  destruct (String.eqb_spec fmt "raw") as [->|Hr]; [by vm_compute|].
  destruct (String.eqb_spec fmt "gpt") as [->|Hg]; [by vm_compute|].
  cbn. apply bool_decide_eq_true. set_solver.
Qed.

(** When the format cannot be obtained, [force_raw_will_convert] raises
    and removes the file it inspected. *)
Theorem force_raw_will_convert_failure_removes_file
    (image_href path_tmp : string) (e : exn) (w w' : world) :
  force_raw_will_convert image_href path_tmp w = (Raised e, w') →
  files w' !! path_tmp = None.
Proof.
  unfold force_raw_will_convert. run.
  destruct (get_source_format image_href path_tmp w) as [[fmt|e'] w1]; [done|].
  intros [= _ <-]. apply lookup_delete_eq.
Qed.

(** [safety_check_image] reports every classification or safety failure
    of an existing file as [InvalidImage], after logging an error that
    names the node or, without a node, the image cache; it never
    modifies the files. *)
Theorem safety_check_image_rejections_are_logged
    (image_path : string) (node : option Node) (content : bytes)
    (r : outcome string) (w w' : world) :
  files w !! image_path = Some content →
  wrapper_formats (inspect_stream content) ≠ Some [] →
  safety_check_image image_path node w = (r, w') →
  files w' = files w
  ∧ ((∃ f, r = Ok (NAME f) ∧ detected content = Ok (Some f) ∧ safe f = true)
     ∨ (r = Raised InvalidImage
        ∧ ∃ msg, last (trace w')
                 = Some (Log ERROR msg [match node with
                                        | Some n => uuid n
                                        | None => "image cache"
                                        end]))).
Proof.
  intros Hf Hne Hrun.
  split; [by apply safety_check_image_logs in Hrun as (? & _)|].
  revert Hrun. unfold safety_check_image. run.
  destruct (detect_file_format_run image_path content w Hf) as (w1 & -> & _).
  destruct (detected content) as [[f|]|e] eqn:Hd; cbn.
  - unfold safety_check. destruct (safe f) eqn:Hs; cbn.
    + intros [= <- <-]. left. eauto.
    + intros [= <- <-]. right. split; [done|]. destruct node; eexists; apply last_snoc.
  - intros [= <- <-]. right. split; [done|]. destruct node; eexists; apply last_snoc.
  - assert (e = ImageFormatError) as ->.
    { revert Hd. unfold detected, wrapper_format.
      destruct (wrapper_formats (inspect_stream content)) as [fs|]; [|done].
      destruct (1 <? length fs)%nat.
      - change (default [] (Some fs)) with fs.
        cbn [is_ImageFormatError]. case_bool_decide; [|by intros [= <-]].
        destruct (filter _ _) eqn:Hfil; [|done].
        exfalso. destruct (iso_gpt_names_two fs) as (_ & x & Hx & Hname); [done|].
        assert (x ∈ filter (λ x, NAME x = "iso") fs) as Hin
          by (by apply list_elem_of_filter).
        rewrite Hfil in Hin. by apply elem_of_nil in Hin.
      - by destruct fs. }
    cbn. intros [= <- <-]. right. split; [done|]. destruct node; eexists; apply last_snoc.
Qed.

End DetectionEffects.

(** A file matching both vmdk and vhd is unacceptable, and logged. *)
Lemma get_source_format_wraps_format_errors_witness :
  let w := Demo.disk [("/x.img", [x56; x01])] 0 in
  let r := get_source_format (W := Demo.marker_wrapper) "href" "/x.img" w in
  r.1 = Raised ImageUnacceptable
  ∧ files r.2 = files w
  ∧ ∃ msg, last (trace r.2) = Some (Log ERROR msg ["href"]).
Proof.
  intros w r.
  destruct (get_source_format_wraps_format_errors (W := Demo.marker_wrapper)
              "href" "/x.img" r.1 w r.2 eq_refl) as (_ & Hfiles & Hlog).
  split; [reflexivity|]. split; [exact Hfiles|]. by apply Hlog.
Defined.

(** An ISO is reported as needing conversion. *)
Lemma force_raw_will_convert_answer_witness :
  ∃ w', force_raw_will_convert (W := Demo.marker_wrapper) "href" "/boot.iso.part"
          (Demo.disk [("/boot.iso.part", [x49; x01])] 0) = (Ok true, w')
        ∧ files w' !! "/boot.iso.part" = Some [x49; x01].
Proof.
  destruct (force_raw_will_convert_answer (W := Demo.marker_wrapper)
              "href" "/boot.iso.part" "iso" [x49; x01]
              (Demo.disk [("/boot.iso.part", [x49; x01])] 0))
    as (w' & Hrun & Hfiles & _); [reflexivity|reflexivity|].
  exists w'. split; [exact Hrun|]. by rewrite Hfiles.
Defined.

Lemma force_raw_will_convert_failure_removes_file_witness :
  let r := force_raw_will_convert (W := Demo.marker_wrapper) "href" "/x.part"
             (Demo.disk [("/x.part", [x56; x01])] 0) in
  r.1 = Raised ImageUnacceptable ∧ files r.2 !! "/x.part" = None.
Proof.
  intros r. split; [reflexivity|].
  exact (force_raw_will_convert_failure_removes_file (W := Demo.marker_wrapper)
           "href" "/x.part" ImageUnacceptable
           (Demo.disk [("/x.part", [x56; x01])] 0) r.2 eq_refl).
Defined.

(** A qcow2 image that fails its safety check, requested for a node. *)
Lemma safety_check_image_rejections_are_logged_witness :
  let w := Demo.disk [("/img", [x51; x21])] 0 in
  let r := safety_check_image (W := Demo.marker_wrapper) "/img" (Some {| uuid := "node-1" |}) w in
  r.1 = Raised InvalidImage ∧ ∃ msg, last (trace r.2) = Some (Log ERROR msg ["node-1"]).
Proof.
  intros w r. split; [reflexivity|].
  destruct (safety_check_image_rejections_are_logged (W := Demo.marker_wrapper)
              "/img" (Some {| uuid := "node-1" |}) [x51; x21] r.1 w r.2)
    as (_ & [(f & Hok & _)|(_ & Hlog)]); [reflexivity|done|reflexivity| |].
  - discriminate Hok.
  - exact Hlog.
Defined.

(** ** The zstd wrapper and the format policy: what is left alone *)

Lemma startswith_take (b pre : bytes) :
  startswith b pre = true ↔ take (length pre) b = pre.
Proof.
  revert b. induction pre as [|p pre IH]; intros [|c b]; cbn; try done.
  rewrite andb_true_iff, IH. split.
  - intros [Heq ->]. by apply Byte.byte_dec_bl in Heq as ->.
  - intros [= -> ->]. split; [by apply Byte.byte_dec_lb|done].
Qed.

Section Untouched.
Context {CONF : conf} {T : Tools}.

Lemma _handle_zstd_compression_skip_run path content w :
  files w !! path = Some content →
  take 4 content ≠ zstd_magic
  ∨ disable_zstandard_decompression (conductor CONF) = true →
  _handle_zstd_compression path w = (Ok tt, w).
Proof.
  intros Hf Hskip. unfold _handle_zstd_compression, read_file. run. rewrite Hf.
  destruct Hskip as [Hmagic| ->]; [|by rewrite andb_false_r].
  destruct (startswith (take 4 content) zstd_magic) eqn:Hs; [|done].
  apply startswith_take in Hs. cbn [length zstd_magic] in Hs.
  rewrite take_take, Nat.min_id in Hs. done.
Qed.

(** A file whose first four bytes are not the zstd magic number (a
    file shorter than four bytes among them) is left exactly as it is
    and no program is run; the same holds for any file when
    decompression is disabled. *)
Theorem _handle_zstd_compression_skips (path : string) (content : bytes) (w : world) :
  files w !! path = Some content →
  take 4 content ≠ zstd_magic
  ∨ disable_zstandard_decompression (conductor CONF) = true →
  _handle_zstd_compression path w = (Ok tt, w).
Proof.
  apply _handle_zstd_compression_skip_run.
Qed.

(** A failed permission check always leaves one error line naming the
    acting node (or the image cache) and the format; a passed check logs
    nothing and changes nothing. *)
Theorem check_if_image_format_is_permitted_audit
    (fmt : string) (expected : option string) (node : option Node)
    (r : outcome unit) (w w' : world) :
  check_if_image_format_is_permitted fmt expected node w = (r, w') →
  (r = Ok tt ∧ w' = w)
  ∨ (r = Raised InvalidImage
     ∧ files w' = files w
     ∧ ∃ msg rest,
         trace w' = (trace w ++ [Log ERROR msg (match node with
                                                | Some n => uuid n
                                                | None => "image cache"
                                                end :: fmt :: rest)])%list).
Proof.
  unfold check_if_image_format_is_permitted. run.
  destruct (image_format_permitted fmt); cbn.
  - destruct expected as [e|]; [|intros [= <- <-]; by left].
    destruct (image_format_matches fmt e); cbn; intros [= <- <-]; [by left|].
    right. split; [done|]. split; [done|]. destruct node; eauto.
  - intros [= <- <-]. right. split; [done|]. split; [done|]. destruct node; eauto.
Qed.

End Untouched.

Lemma _handle_zstd_compression_skips_witness :
  let w := Demo.disk [("/short", [x28; xb5]); ("/img", [x51; x01; x02; x03; x04])] 0 in
  _handle_zstd_compression (CONF := Demo.settings false) (T := Demo.tools) "/short" w
  = (Ok tt, w)
  ∧ _handle_zstd_compression (CONF := Demo.settings false) (T := Demo.tools) "/img" w
    = (Ok tt, w).
Proof.
  intros w. split.
  - apply (_handle_zstd_compression_skips (CONF := Demo.settings false) (T := Demo.tools)
             "/short" [x28; xb5] w); [reflexivity|by left].
  - apply (_handle_zstd_compression_skips (CONF := Demo.settings false) (T := Demo.tools)
             "/img" [x51; x01; x02; x03; x04] w); [reflexivity|by left].
Defined.

(** A vmdk image where only raw, qcow2 and iso are permitted. *)
Lemma check_if_image_format_is_permitted_audit_witness :
  let w := Demo.disk [] 0 in
  let r := check_if_image_format_is_permitted (CONF := Demo.settings false)
             "vmdk" None None w in
  r.1 = Raised InvalidImage
  ∧ ∃ msg rest, trace r.2 = [Log ERROR msg ("image cache" :: "vmdk" :: rest)].
Proof.
  intros w r.
  destruct (check_if_image_format_is_permitted_audit (CONF := Demo.settings false)
              "vmdk" None None r.1 w r.2 eq_refl) as [[Hok _]|(Herr & _ & Hlog)].
  - discriminate Hok.
  - split; [exact Herr|exact Hlog].
Defined.

(** The magic number with a sound frame, on a host with and without
    the zstd program. *)
Lemma _handle_zstd_compression_run_witness :
  let original := [x28; xb5; x2f; xfd; x51; x07] in
  let w := Demo.disk [("/img", original)] 0 in
  let ok := _handle_zstd_compression (CONF := Demo.settings false) (T := Demo.tools) "/img" w in
  let absent :=
    _handle_zstd_compression (CONF := Demo.settings false) (T := Demo.broken_tools) "/img" w in
  (ok.1 = Ok tt ∧ files ok.2 !! "/img" = Some [x51; x07])
  ∧ (absent.1 = Ok tt ∧ files absent.2 !! "/img" = Some original
     ∧ files absent.2 !! "/img.zstd" = None).
Proof.
  intros original w ok absent. split.
  - pose proof (_handle_zstd_compression_run (CONF := Demo.settings false) (T := Demo.tools)
                  "/img" original w eq_refl eq_refl eq_refl) as Hrun.
    cbn zeta in Hrun. destruct Hrun as [Hok Hfiles]. split; [exact Hok|].
    fold ok in Hfiles. rewrite Hfiles. reflexivity.
  - exact (_handle_zstd_compression_run (CONF := Demo.settings false)
             (T := Demo.broken_tools) "/img" original w eq_refl eq_refl eq_refl).
Defined.

(** ** Fetching *)

Section FetchFacts.
Context {CONF : conf} {W : InspectWrapper} {T : Tools} {S : ImageService} {D : ImageTransfer}.

(** What [fetch_into] does once a service is found: the file holds
    what the download wrote, whether or not it completed. *)
Lemma fetch_into_run image_href path image_auth_data written failure w :
  get_image_service image_href = Ok tt →
  download image_href
    (if is_auth_set_needed image_href then Some image_auth_data else None)
  = (written, failure) →
  ∃ w1, fetch_into image_href path image_auth_data w
        = (match failure with
           | Some e => Raised e
           | None => Ok (if truthy (transfer_verified_checksum image_href)
                         then transfer_verified_checksum image_href else None)
           end, w1)
        ∧ files w1 = <[path := written]> (files w)
        ∧ free_memory w1 = free_memory w
        ∧ external_calls (trace w1) = external_calls (trace w).
Proof.
  intros Hsvc Hdl. unfold fetch_into, write_file. run. rewrite Hsvc, Hdl.
  cbn [files set_files emit].
  assert (∀ t : list event, ∀ lvl msg args,
            external_calls (t ++ [Log lvl msg args]) = external_calls t) as Hlog.
  { intros. unfold external_calls. rewrite filter_app. cbn. apply app_nil_r. }
  destruct failure as [e|].
  - eexists. split; [done|]. cbn [files trace free_memory set_files emit].
    by rewrite insert_insert_eq, Hlog.
  - destruct (truthy (transfer_verified_checksum image_href));
      (eexists; split; [done|]); cbn [files trace free_memory set_files emit];
      by rewrite insert_insert_eq, !Hlog.
Qed.

(** A download that breaks off leaves nothing at the destination:
    [fetch] raises the download's exception, the partial file is
    removed, and neither zstd nor the converter is run. *)
Theorem fetch_download_failure_removes_file
    (image_href path : string) (force_raw : bool) (checksum checksum_algo : option string)
    (image_auth_data : option string) (partial : bytes) (e : exn) (w : world) :
  get_image_service image_href = Ok tt →
  download image_href
    (if is_auth_set_needed image_href then Some image_auth_data else None)
  = (partial, Some e) →
  ∃ w', fetch image_href path force_raw checksum checksum_algo image_auth_data w
        = (Raised e, w')
        ∧ files w' !! path = None
        ∧ external_calls (trace w') = external_calls (trace w).
Proof.
  intros Hsvc Hdl.
  destruct (fetch_into_run image_href path image_auth_data partial (Some e) w Hsvc Hdl)
    as (w1 & Hrun & _ & _ & Hcalls).
  unfold fetch. run. rewrite Hrun. eexists. split; [done|].
  split; [apply lookup_delete_eq|done].
Qed.

(** A checksum that does not validate leaves nothing at the
    destination either. *)
Theorem fetch_checksum_failure_removes_file
    (image_href path checksum : string) (force_raw : bool) (checksum_algo : option string)
    (image_auth_data : option string) (content : bytes) (e : exn) (w : world) :
  get_image_service image_href = Ok tt →
  download image_href
    (if is_auth_set_needed image_href then Some image_auth_data else None)
  = (content, None) →
  truthy (transfer_verified_checksum image_href) = false →
  disable_file_checksum (conductor CONF) = false →
  checksum ≠ "" →
  validate_checksum content checksum checksum_algo = Raised e →
  ∃ w', fetch image_href path force_raw (Some checksum) checksum_algo image_auth_data w
        = (Raised e, w')
        ∧ files w' !! path = None
        ∧ external_calls (trace w') = external_calls (trace w).
Proof.
  intros Hsvc Hdl Htvc Hon Hne Hval.
  destruct (fetch_into_run image_href path image_auth_data content None w Hsvc Hdl)
    as (w1 & Hrun & Hfiles & _ & Hcalls).
  unfold fetch, read_file. run. rewrite Hrun, Htvc, Hon. cbn [truthy negb andb].
  destruct checksum as [|a c]; [done|].
  change (default "" (Some (String a c))) with (String a c).
  rewrite Hfiles, lookup_insert_eq, Hval.
  eexists. split; [done|]. split; [apply lookup_delete_eq|done].
Qed.

(** The supplied checksum plays no role when the transfer already
    reported a verified checksum or when file checksums are disabled:
    [fetch] behaves as if none had been given. *)
Theorem fetch_checksum_not_consulted
    (image_href path : string) (force_raw : bool) (checksum checksum_algo : option string)
    (image_auth_data : option string) (w : world) :
  truthy (transfer_verified_checksum image_href) = true
  ∨ disable_file_checksum (conductor CONF) = true →
  fetch image_href path force_raw checksum checksum_algo image_auth_data w
  = fetch image_href path force_raw None None image_auth_data w.
Proof.
  intros Hskip. unfold fetch. run.
  destruct (fetch_into image_href path image_auth_data w) as [[tc|e] w1] eqn:Hinto; [|done].
  assert (negb (truthy tc) && negb (disable_file_checksum (conductor CONF)) = false) as Hcond.
  { destruct Hskip as [Htvc| ->]; [|by rewrite andb_false_r].
    revert Hinto. unfold fetch_into, write_file. run.
    destruct (get_image_service image_href); [|done].
    destruct (download image_href _) as [written [e|]]; [done|].
    rewrite Htvc. intros [= <- _]. by rewrite Htvc. }
  by rewrite Hcond.
Qed.

Lemma image_to_raw_needs_staging image_href path path_tmp w w' :
  image_to_raw image_href path path_tmp w = (Ok tt, w') → is_Some (files w !! path_tmp).
Proof.
  intros Hrun.
  apply image_to_raw_inv in Hrun
    as [(? & ? & _ & ? & _)|(fmt & w1 & r2 & w2 & Hi & Hc & <- & _)]; [done|].
  apply image_to_raw_inspect_logs in Hi as (Hfiles & _). rewrite <- Hfiles.
  revert Hc. unfold image_to_raw_convert, is_memory_insufficient, convert_image, rename. run.
  destruct (_ && _).
  - destruct (_ <? _)%Z; [done|]. cbn [files emit].
    by destruct (files w1 !! path_tmp).
  - by destruct (files w1 !! path_tmp).
Qed.

(** [fetch] with [force_raw] hands [image_to_raw] the download as the
    final path and [<path>.part] as the staging path, a file it never
    creates.  After a complete download of content that is not zstd,
    with nothing at [<path>.part], the call cannot succeed: it raises
    (with deep inspection enabled, [FileNotFoundError]) and the download
    stays at [path] unconverted. *)
Theorem fetch_force_raw_fails_without_part_file
    (image_href path : string) (image_auth_data : option string)
    (content : bytes) (w : world) :
  get_image_service image_href = Ok tt →
  download image_href
    (if is_auth_set_needed image_href then Some image_auth_data else None)
  = (content, None) →
  take 4 content ≠ zstd_magic →
  files w !! with_added_suffix path ".part" = None →
  ∃ e w', fetch image_href path true None None image_auth_data w = (Raised e, w')
          ∧ files w' !! path = Some content
          ∧ (disable_deep_image_inspection (conductor CONF) = false →
             e = FileNotFoundError).
Proof.
  intros Hsvc Hdl Hmagic Hpart.
  assert (path ≠ with_added_suffix path ".part") as Hne
    by (intros Heq; by apply (with_added_suffix_ne path ".part")).
  destruct (fetch_into_run image_href path image_auth_data content None w Hsvc Hdl)
    as (w1 & Hrun & Hfiles & _).
  assert (files w1 !! path = Some content) as Hpath
    by (by rewrite Hfiles, lookup_insert_eq).
  assert (files w1 !! with_added_suffix path ".part" = None) as Hpart1
    by (by rewrite Hfiles, lookup_insert_ne).
  unfold fetch. run. rewrite Hrun. rewrite andb_false_r.
  rewrite (_handle_zstd_compression_skip_run path content w1 Hpath) by (by left).
  destruct (image_to_raw image_href path (with_added_suffix path ".part") w1)
    as [[[]|e] w2] eqn:Hraw.
  { apply image_to_raw_needs_staging in Hraw as [? Hsome]. congruence. }
  exists e, w2. split; [done|].
  destruct (image_to_raw_failure_files _ _ _ _ _ _ Hraw) as (_ & Hfinal & _).
  split; [by rewrite Hfinal|].
  intros Hon. revert Hraw. unfold image_to_raw, image_to_raw_inspect, safety_check_image.
  rewrite Hon. cbn [negb]. run.
  rewrite (detect_file_format_missing _ _ Hpart1). cbn. by intros [= <- _].
Qed.

End FetchFacts.

Lemma fetch_download_failure_removes_file_witness :
  ∃ w', fetch (CONF := Demo.settings false) (W := Demo.marker_wrapper) (T := Demo.tools)
          (S := Demo.web) (D := Demo.transfer)
          "http://host/gone" "/img" false None None None (Demo.disk [] 4096)
        = (Raised OSError, w')
        ∧ files w' !! "/img" = None.
Proof.
  destruct (fetch_download_failure_removes_file
              (CONF := Demo.settings false) (W := Demo.marker_wrapper) (T := Demo.tools)
              (S := Demo.web) (D := Demo.transfer)
              "http://host/gone" "/img" false None None None [x51] OSError (Demo.disk [] 4096))
    as (w' & Hrun & Hgone & _); [reflexivity|reflexivity|]. eauto.
Defined.

Lemma fetch_checksum_failure_removes_file_witness :
  ∃ w', fetch (CONF := Demo.settings false) (W := Demo.marker_wrapper) (T := Demo.tools)
          (S := Demo.web) (D := Demo.transfer)
          "http://host/disk.qcow2" "/img" false (Some "bad") None None (Demo.disk [] 4096)
        = (Raised InvalidImage, w')
        ∧ files w' !! "/img" = None.
Proof.
  destruct (fetch_checksum_failure_removes_file
              (CONF := Demo.settings false) (W := Demo.marker_wrapper) (T := Demo.tools)
              (S := Demo.web) (D := Demo.transfer)
              "http://host/disk.qcow2" "/img" "bad" false None None [x51; x01; x02]
              InvalidImage (Demo.disk [] 4096))
    as (w' & Hrun & Hgone & _); [reflexivity..|done|reflexivity|]. eauto.
Defined.

(** The transfer of this image was verified, so a wrong checksum goes
    unnoticed. *)
Lemma fetch_checksum_not_consulted_witness :
  (fetch (CONF := Demo.settings false) (W := Demo.marker_wrapper) (T := Demo.tools)
     (S := Demo.web) (D := Demo.transfer)
     "http://host/verified.qcow2" "/img" false (Some "bad") None None (Demo.disk [] 4096)).1
  = Ok tt.
Proof.
  rewrite (fetch_checksum_not_consulted
             (CONF := Demo.settings false) (W := Demo.marker_wrapper) (T := Demo.tools)
             (S := Demo.web) (D := Demo.transfer)
             "http://host/verified.qcow2" "/img" false (Some "bad") None None
             (Demo.disk [] 4096)); [reflexivity|by left].
Defined.

Lemma fetch_force_raw_fails_without_part_file_witness :
  ∃ w', fetch (CONF := Demo.settings false) (W := Demo.marker_wrapper) (T := Demo.tools)
          (S := Demo.web) (D := Demo.transfer)
          "http://host/disk.qcow2" "/img" true None None None (Demo.disk [] 4096)
        = (Raised FileNotFoundError, w')
        ∧ files w' !! "/img" = Some [x51; x01; x02].
Proof.
  destruct (fetch_force_raw_fails_without_part_file
              (CONF := Demo.settings false) (W := Demo.marker_wrapper) (T := Demo.tools)
              (S := Demo.web) (D := Demo.transfer)
              "http://host/disk.qcow2" "/img" None [x51; x01; x02] (Demo.disk [] 4096))
    as (e & w' & Hrun & Hfile & He); [reflexivity|reflexivity|done|reflexivity|].
  rewrite (He eq_refl) in Hrun. eauto.
Defined.

(** ** PolicyClassifier *)

Section WholeDiskFacts.
Context {S : ImageService} {D : ImageTransfer} {R : References}.

(** An explicit [image_type] decides the answer on its own: anything
    but "partition" is a whole-disk image, and no service is asked. *)
Theorem is_whole_disk_image_explicit_type
    (instance_info : gmap string string) (image_source image_type : string) (w : world) :
  instance_info !! "image_source" = Some image_source → image_source ≠ "" →
  instance_info !! "image_type" = Some image_type → image_type ≠ "" →
  is_whole_disk_image instance_info w
  = (Ok (Some (negb (String.eqb image_type "partition"))), w).
Proof.
  intros Hsrc Hne Hty Hne'. unfold is_whole_disk_image. rewrite Hsrc, Hty.
  destruct image_source; [done|]. by destruct image_type.
Qed.

(** For a Glance image without explicit [image_type]: a failing
    properties lookup gives None; otherwise the stored [img_type] wins,
    and without it the image is whole-disk exactly when neither a
    kernel nor a ramdisk is associated. *)
Theorem is_whole_disk_image_glance
    (instance_info : gmap string string) (image_source : string) (w : world) :
  instance_info !! "image_source" = Some image_source → image_source ≠ "" →
  truthy (instance_info !! "image_type") = false →
  is_glance_image image_source = true →
  (is_whole_disk_image instance_info w).1
  = Ok match get_image_service image_source, show image_source with
       | Ok _, Ok meta =>
           let props := image_properties meta in
           if truthy (props !! "img_type")
           then Some (negb (String.eqb (default "" (props !! "img_type")) "partition"))
           else Some (negb (truthy (props !! "kernel_id"))
                      && negb (truthy (props !! "ramdisk_id")))
       | _, _ => None
       end.
Proof.
  intros Hsrc Hne Hty Hglance. unfold is_whole_disk_image, get_image_properties.
  rewrite Hsrc, Hty. destruct image_source as [|a s]; [done|].
  cbn [truthy negb]. change (default "" (Some (String a s))) with (String a s).
  rewrite Hglance. run.
  destruct (get_image_service (String a s)) as [[]|e]; [|done].
  destruct (show (String a s)) as [meta|e]; [|done].
  change (String.eqb "all" "all") with true. cbn [fst].
  rewrite !lookup_fmap.
  destruct (image_properties meta !! "img_type") as [ty|]; cbn;
    [destruct ty; cbn; [|done]|];
    by destruct (image_properties meta !! "kernel_id") as [[|??]|],
               (image_properties meta !! "ramdisk_id") as [[|??]|].
Qed.

(** For any other reference that is not a container registry URL the
    answer follows [is_source_a_path]: only a definite "this is a path"
    gives None.  When the probe could not tell (it answered None
    because the request failed) the image is still classified, from the
    absence of kernel and ramdisk. *)
Theorem is_whole_disk_image_url
    (instance_info : gmap string string) (image_source : string)
    (answer : option bool) (w : world) :
  instance_info !! "image_source" = Some image_source → image_source ≠ "" →
  truthy (instance_info !! "image_type") = false →
  is_glance_image image_source = false →
  is_container_registry_url image_source = false →
  (is_source_a_path (Some image_source) w).1 = Ok answer →
  (is_whole_disk_image instance_info w).1
  = Ok (if bool_decide (answer = Some true) then None
        else Some (negb (truthy (instance_info !! "kernel"))
                   && negb (truthy (instance_info !! "ramdisk")))).
Proof.
  intros Hsrc Hne Hty Hglance Hreg Hpath. unfold is_whole_disk_image.
  rewrite Hsrc, Hty. destruct image_source as [|a s]; [done|].
  cbn [truthy negb]. change (default "" (Some (String a s))) with (String a s).
  rewrite Hglance, Hreg. run.
  destruct (is_source_a_path (Some (String a s)) w) as [r w1]. cbn in Hpath. subst r.
  destruct answer as [[]|]; cbn; try done;
    by destruct (negb (truthy (instance_info !! "kernel"))
                 && negb (truthy (instance_info !! "ramdisk"))).
Qed.

(** [get_image_properties] with a list of names returns exactly those
    names; a name the image does not carry maps to None. *)
Theorem get_image_properties_named
    (image_href : string) (names : list string) (meta : image_meta) (w : world) :
  get_image_service image_href = Ok tt →
  show image_href = Ok meta →
  ∃ result, get_image_properties image_href (inr names) w = (Ok result, w)
            ∧ ∀ p, result !! p = if bool_decide (p ∈ names)
                                 then Some (image_properties meta !! p) else None.
Proof.
  intros Hsvc Hshow. unfold get_image_properties. run. rewrite Hsvc, Hshow.
  eexists. split; [done|]. intros p.
  induction names as [|n names IH]; [done|].
  cbn [fmap list_fmap list_to_map foldr]. rewrite (lookup_insert _ n p).
  destruct (decide (n = p)) as [->|Hnp].
  - rewrite bool_decide_eq_true_2 by left. done.
  - cbn in IH. rewrite IH.
    rewrite (bool_decide_ext (p ∈ n :: names) (p ∈ names)); [done|set_solver].
Qed.

End WholeDiskFacts.

Lemma is_whole_disk_image_explicit_type_witness :
  is_whole_disk_image (S := Demo.web) (D := Demo.transfer) (R := Demo.references)
    (list_to_map [("image_source", "http://down/x"); ("image_type", "partition")])
    (Demo.disk [] 0)
  = (Ok (Some false), Demo.disk [] 0).
Proof.
  exact (is_whole_disk_image_explicit_type (S := Demo.web) (D := Demo.transfer)
           (R := Demo.references)
           (list_to_map [("image_source", "http://down/x"); ("image_type", "partition")])
           "http://down/x" "partition" (Demo.disk [] 0) eq_refl ltac:(done) eq_refl ltac:(done)).
Defined.

(** A Glance image with kernel and ramdisk associations is a partition
    image. *)
Lemma is_whole_disk_image_glance_witness :
  (is_whole_disk_image (S := Demo.web) (D := Demo.transfer) (R := Demo.references)
     (list_to_map [("image_source", "glance-uuid")]) (Demo.disk [] 0)).1
  = Ok (Some false).
Proof.
  rewrite (is_whole_disk_image_glance (S := Demo.web) (D := Demo.transfer)
             (R := Demo.references)
             (list_to_map [("image_source", "glance-uuid")]) "glance-uuid" (Demo.disk [] 0));
    [reflexivity|reflexivity|done|reflexivity|reflexivity].
Defined.

(** A host that does not answer the probe: the image is still
    classified as whole-disk, not as unknown. *)
Lemma is_whole_disk_image_url_witness :
  (is_source_a_path (S := Demo.web) (Some "http://down/x") (Demo.disk [] 0)).1 = Ok None
  ∧ (is_whole_disk_image (S := Demo.web) (D := Demo.transfer) (R := Demo.references)
       (list_to_map [("image_source", "http://down/x")]) (Demo.disk [] 0)).1
    = Ok (Some true).
Proof.
  split; [reflexivity|].
  rewrite (is_whole_disk_image_url (S := Demo.web) (D := Demo.transfer)
             (R := Demo.references)
             (list_to_map [("image_source", "http://down/x")]) "http://down/x" None
             (Demo.disk [] 0));
    [reflexivity|reflexivity|done|reflexivity|reflexivity|reflexivity|reflexivity].
Defined.

Lemma get_image_properties_named_witness :
  ∃ result,
    get_image_properties (S := Demo.web) (D := Demo.transfer) "glance-uuid"
      (inr ["kernel_id"; "os_distro"]) (Demo.disk [] 0) = (Ok result, Demo.disk [] 0)
    ∧ result !! "kernel_id" = Some (Some "k-1")
    ∧ result !! "os_distro" = Some None
    ∧ result !! "ramdisk_id" = None.
Proof.
  destruct (get_image_properties_named (S := Demo.web) (D := Demo.transfer)
              "glance-uuid" ["kernel_id"; "os_distro"]
              {| image_size := 3;
                 image_properties := list_to_map [("kernel_id", "k-1"); ("ramdisk_id", "r-1")] |}
              (Demo.disk [] 0) eq_refl eq_refl) as (result & Hrun & Hlookup).
  exists result. split; [exact Hrun|]. rewrite !Hlookup. by vm_compute.
Defined.

(** ** Paths *)

(** [pathlib] drops [.] and repeated or trailing slashes, keeps [..],
    and lets an absolute right operand replace the left one. *)
Lemma path_join_examples :
  path_join "/tmp/root" "./a" = "/tmp/root/a"
  ∧ path_join "/tmp/root" "b//c/" = "/tmp/root/b/c"
  ∧ path_join "/tmp/root" "../escaped" = "/tmp/root/../escaped"
  ∧ path_join "/tmp/root" "/etc/passwd" = "/etc/passwd"
  ∧ path_join "/" "x" = "/x"
  ∧ path_join "" "x" = "x"
  ∧ path_join "a" "" = "a"
  ∧ Path "" = "." ∧ Path "//a" = "//a" ∧ Path "///a" = "/a"
  ∧ clean_relative "../escaped" = false
  ∧ clean_relative "a/../../escaped" = false
  ∧ clean_relative "/etc/passwd" = false
  ∧ clean_relative "." = false
  ∧ canonical "/tmp/x/../root" = false
  ∧ canonical "tmp/root" = false.
Proof. vm_compute. repeat split. Qed.

(** ** RootFilesystemBuilder *)

Lemma prefix_app (a b : string) : String.prefix a (a ++ b) = true.
Proof.
  induction a as [|c a IH].
  - destruct b; reflexivity.
  - change (String c a ++ b) with (String c (a ++ b)). cbn [String.prefix].
    destruct (ascii_dec c c); [exact IH|congruence].
Qed.

Lemma prefix_empty (s : string) : String.prefix "" s = true.
Proof. by destruct s. Qed.

Lemma append_assoc (a b c : string) : (a ++ b) ++ c = a ++ b ++ c.
Proof.
  induction a as [|x a IH]; [reflexivity|].
  change (String x ((a ++ b) ++ c) = String x (a ++ b ++ c)). by rewrite IH.
Qed.

Lemma append_empty_r (a : string) : a ++ "" = a.
Proof.
  induction a as [|x a IH]; [reflexivity|].
  change (String x (a ++ "") = String x a). by rewrite IH.
Qed.

Lemma split_slash_nonempty (s : string) : split_slash s ≠ [].
Proof.
  induction s as [|c s IH]; [done|]. cbn [split_slash].
  destruct (Ascii.eqb c "/"); [done|]. by destruct (split_slash s).
Qed.

(** Cutting at slashes distributes over a join with a slash. *)
Lemma split_slash_app (a b : string) :
  split_slash (a ++ "/" ++ b) = (split_slash a ++ split_slash b)%list.
Proof.
  induction a as [|c a IH]; [reflexivity|].
  change (String c a ++ "/" ++ b) with (String c (a ++ "/" ++ b)).
  cbn [split_slash]. rewrite IH.
  destruct (Ascii.eqb c "/"); [reflexivity|].
  pose proof (split_slash_nonempty a). by destruct (split_slash a).
Qed.

Lemma path_parts_app (a b : string) :
  path_parts (a ++ "/" ++ b) = (path_parts a ++ path_parts b)%list.
Proof. unfold path_parts. by rewrite split_slash_app, filter_app. Qed.

Lemma ends_with_slash_inv (a : string) :
  ends_with_slash a = true → ∃ r, a = r ++ "/".
Proof.
  induction a as [|c a IH]; [done|]. destruct a as [|c' a'].
  - cbn. intros ->%Ascii.eqb_eq. by exists "".
  - intros H. destruct IH as (r & Hr); [exact H|]. exists (String c r).
    change (String c (String c' a') = String c (r ++ "/")). by rewrite Hr.
Qed.

(** Joining a relative path appends its components. *)
Lemma path_parts_posixpath_join (a b : string) :
  String.prefix "/" b = false →
  path_parts (posixpath_join a b) = (path_parts a ++ path_parts b)%list.
Proof.
  intros Hrel. unfold posixpath_join. rewrite Hrel.
  destruct (String.eqb_spec a "") as [->|_]; [reflexivity|]. cbn [orb].
  destruct (ends_with_slash a) eqn:Hend; [|apply path_parts_app].
  apply ends_with_slash_inv in Hend as (r & ->).
  rewrite append_assoc, path_parts_app.
  change (r ++ "/") with (r ++ "/" ++ ""). rewrite path_parts_app.
  change (path_parts "") with (@nil string). by rewrite app_nil_r.
Qed.

(** Joining a relative path to a path rooted at a single slash leaves
    the root as it is. *)
Lemma path_root_posixpath_join (a b : string) :
  path_root a = "/" → String.prefix "/" b = false →
  path_root (posixpath_join a b) = "/".
Proof.
  intros Hroot Hrel. unfold posixpath_join. rewrite Hrel.
  destruct a as [|c0 a]; [done|]. cbn [String.eqb orb].
  destruct a as [|c1 a].
  - assert (c0 = "/"%char) as ->.
    { revert Hroot. unfold path_root. cbn [String.prefix].
      by destruct (ascii_dec "/" c0). }
    change (ends_with_slash "/") with true. cbv iota.
    change ("/" ++ b) with (String "/" b).
    destruct b as [|c b]; [done|].
    unfold path_root. cbn [String.prefix] in Hrel |- *.
    destruct (ascii_dec "/" c); [|done]. by rewrite Hrel.
  - assert (∀ x, path_root (String c0 (String c1 a) ++ x) = "/") as Hany.
    { intros x. revert Hroot. unfold path_root.
      change (String c0 (String c1 a) ++ x) with (String c0 (String c1 (a ++ x))).
      cbn [String.prefix].
      destruct (ascii_dec "/" c0) as [<- |]; [|done].
      destruct (ascii_dec "/" c1) as [<- |]; [|done].
      destruct a as [|c2 a]; [done|].
      change (String c2 a ++ x) with (String c2 (a ++ x)).
      cbn [String.prefix]. rewrite !prefix_empty. by destruct (ascii_dec "/" c2). }
    destruct (ends_with_slash (String c0 (String c1 a))); apply Hany.
Qed.

Lemma concat_app (rs ds : list string) :
  rs ≠ [] → ds ≠ [] →
  String.concat "/" (rs ++ ds) = String.concat "/" rs ++ "/" ++ String.concat "/" ds.
Proof.
  intros Hrs Hds. induction rs as [|r rs IH]; [done|].
  destruct rs as [|r' rs].
  - destruct ds as [|d ds]; [done|]. reflexivity.
  - change (String.concat "/" ((r :: r' :: rs) ++ ds))
      with (r ++ "/" ++ String.concat "/" ((r' :: rs) ++ ds)).
    rewrite IH by done.
    change (String.concat "/" (r :: r' :: rs)) with (r ++ "/" ++ String.concat "/" (r' :: rs)).
    by rewrite !append_assoc.
Qed.

(** A canonical path is its root slash followed by its components. *)
Lemma canonical_format (p : string) :
  canonical p = true → p = "/" ++ String.concat "/" (path_parts p).
Proof.
  unfold canonical. intros [[Hroot Hstr]%andb_prop _]%andb_prop.
  apply String.eqb_eq in Hroot. apply String.eqb_eq in Hstr.
  unfold Path in Hstr. rewrite Hroot in Hstr. by rewrite <- Hstr at 1.
Qed.

Lemma canonical_parts (p : string) :
  canonical p = true → p ≠ "/" → path_parts p ≠ [].
Proof.
  intros Hp Hne Hnil. apply Hne. rewrite (canonical_format p Hp), Hnil. reflexivity.
Qed.

(** A clean relative path joined to a canonical directory names a path
    below that directory. *)
Lemma path_join_under (root dst : string) :
  canonical root = true → root ≠ "/" → clean_relative dst = true →
  under_dir root (path_join root dst) = true.
Proof.
  intros Hroot Hne Hdst.
  pose proof (canonical_parts root Hroot Hne) as Hrs.
  pose proof (canonical_format root Hroot) as Hfmt.
  unfold clean_relative in Hdst.
  apply andb_prop in Hdst as [[Hrel%negb_true_iff Hds%negb_true_iff]%andb_prop _].
  apply bool_decide_eq_false in Hds.
  unfold canonical in Hroot. apply andb_prop in Hroot as [[Hr%String.eqb_eq _]%andb_prop _].
  unfold path_join, Path.
  rewrite (path_root_posixpath_join root dst Hr Hrel), (path_parts_posixpath_join root dst Hrel).
  rewrite concat_app by done.
  unfold under_dir. rewrite Hfmt at 1.
  generalize (String.concat "/" (path_parts root)) (String.concat "/" (path_parts dst)).
  intros a b. change ("/" ++ a ++ "/" ++ b) with (String "/" (a ++ "/" ++ b)).
  cbn [String.eqb].
  replace (String "/" (a ++ "/" ++ b)) with ((("/" ++ a) ++ "/") ++ b); [apply prefix_app|].
  by rewrite !append_assoc.
Qed.

Section RootFs.
Context {CONF : conf} {T : Tools}.

(** One entry of [files_info] writes its target and nothing else. *)
Lemma _create_root_fs_frame root files_info p r w w' :
  _create_root_fs root files_info w = (r, w') →
  p ∉ path_join root <$> files_info.*2 →
  files w' !! p = files w !! p.
Proof.
  revert w. induction files_info as [|[src dst] rest IH]; intros w.
  { cbn. by intros [= _ <-]. }
  cbn [_create_root_fs fmap list_fmap snd]. intros Hrun Hp.
  apply not_elem_of_cons in Hp as [Hne Hp].
  revert Hrun. unfold copyfile, read_file, write_file. run.
  destruct src as [q|b].
  - destruct (String.eqb q "/dev/null").
    + cbn. intros Hrun. apply IH in Hrun; [|done]. rewrite Hrun. cbn.
      by rewrite lookup_insert_ne.
    + cbn [files emit]. destruct (files w !! q).
      * intros Hrun. apply IH in Hrun; [|done]. rewrite Hrun. cbn.
        by rewrite lookup_insert_ne.
      * by intros [= _ <-].
  - intros Hrun. apply IH in Hrun; [|done]. rewrite Hrun. cbn.
    by rewrite lookup_insert_ne.
Qed.

(** For a canonical root directory other than [/] and destinations that
    are relative, name something and contain no [..], [_create_root_fs]
    leaves every file that is not below the root directory as it was,
    however it ends. *)
Theorem _create_root_fs_stays_under_root
    (root : string) (files_info : list (source * string)) (p : string)
    (r : outcome unit) (w w' : world) :
  _create_root_fs root files_info w = (r, w') →
  canonical root = true → root ≠ "/" →
  (∀ dst, dst ∈ files_info.*2 → clean_relative dst = true) →
  canonical p = true →
  under_dir root p = false →
  files w' !! p = files w !! p.
Proof.
  intros Hrun Hroot Hne Hrel _ Hout. eapply _create_root_fs_frame; [done|].
  intros (dst & -> & Hdst)%list_elem_of_fmap.
  rewrite path_join_under in Hout by auto. done.
Qed.

Lemma _create_root_fs_cons root src0 dst0 rest w w' :
  _create_root_fs root ((src0, dst0) :: rest) w = (Ok tt, w') →
  ∃ c w1, files w1 = <[path_join root dst0 := c]> (files w)
          ∧ _create_root_fs root rest w1 = (Ok tt, w')
          ∧ match src0 with
            | SrcBytes b => c = b
            | SrcPath p => if String.eqb p "/dev/null" then c = []
                           else files w !! p = Some c
            end.
Proof.
  cbn [_create_root_fs]. unfold copyfile, read_file, write_file. run.
  destruct src0 as [q|b].
  - destruct (String.eqb q "/dev/null").
    + intros Hrun. eexists [], _. split; [|split; [exact Hrun|done]]. done.
    + cbn [files emit]. destruct (files w !! q) as [c|]; [|done].
      intros Hrun. eexists c, _. split; [|split; [exact Hrun|done]]. done.
  - intros Hrun. eexists b, _. split; [|split; [exact Hrun|done]]. done.
Qed.

Lemma _create_root_fs_targets root files_info w w' :
  _create_root_fs root files_info w = (Ok tt, w') →
  NoDup (path_join root <$> files_info.*2) →
  ∀ src dst, (src, dst) ∈ files_info →
    match src with
    | SrcBytes b => files w' !! path_join root dst = Some b
    | SrcPath p =>
        if String.eqb p "/dev/null" then files w' !! path_join root dst = Some []
        else p ∉ path_join root <$> files_info.*2 →
             files w' !! path_join root dst = files w !! p
    end.
Proof.
  revert w. induction files_info as [|[src0 dst0] rest IH]; intros w Hrun Hnd src dst Hin.
  { by apply elem_of_nil in Hin. }
  cbn [fmap list_fmap snd] in *. apply NoDup_cons in Hnd as [Hfresh Hnd].
  apply _create_root_fs_cons in Hrun as (c & w1 & Hw1 & Hrest & Hc).
  apply elem_of_cons in Hin as [[= -> ->]|Hin].
  - rewrite (_create_root_fs_frame _ _ _ _ _ _ Hrest Hfresh), Hw1, lookup_insert_eq.
    destruct src0 as [p|b]; [|by subst].
    destruct (String.eqb p "/dev/null"); [by subst|]. by rewrite Hc.
  - specialize (IH w1 Hrest Hnd src dst Hin).
    destruct src as [p|b]; [|done].
    destruct (String.eqb p "/dev/null"); [done|].
    intros [Hne Hp]%not_elem_of_cons. rewrite (IH Hp), Hw1.
    by rewrite lookup_insert_ne.
Qed.

(** For a canonical root directory other than [/] that holds no file
    yet, and destinations that are relative, name something, contain no
    [..] and give pairwise distinct targets none of which lies below
    another: after a successful [_create_root_fs] every target is a
    path below the root directory and holds its source: byte content
    verbatim, an empty file for [/dev/null], and for any other
    canonical source path that is not itself a target the bytes that
    file had before the call. *)
Theorem _create_root_fs_materialises
    (root : string) (files_info : list (source * string)) (w w' : world) :
  _create_root_fs root files_info w = (Ok tt, w') →
  canonical root = true → root ≠ "/" →
  map_Forall (λ q _, under_dir root q = false) (files w) →
  (∀ dst, dst ∈ files_info.*2 → clean_relative dst = true) →
  NoDup (path_join root <$> files_info.*2) →
  (∀ t t', t ∈ path_join root <$> files_info.*2 →
           t' ∈ path_join root <$> files_info.*2 → under_dir t t' = false) →
  ∀ src dst, (src, dst) ∈ files_info →
    under_dir root (path_join root dst) = true
    ∧ match src with
      | SrcBytes b => files w' !! path_join root dst = Some b
      | SrcPath p =>
          if String.eqb p "/dev/null" then files w' !! path_join root dst = Some []
          else canonical p = true →
               p ∉ path_join root <$> files_info.*2 →
               files w' !! path_join root dst = files w !! p
      end.
Proof.
  intros Hrun Hroot Hne _ Hrel Hnd _ src dst Hin. split.
  - apply path_join_under; [done|done|]. apply Hrel.
    apply list_elem_of_fmap. by exists (src, dst).
  - pose proof (_create_root_fs_targets root files_info w w' Hrun Hnd src dst Hin) as H.
    destruct src as [p|b]; [|done].
    destruct (String.eqb p "/dev/null"); [done|]. intros _. exact H.
Qed.

End RootFs.

(** A run that fails half way: the kernel is in place below the root
    directory, a file elsewhere is as it was. *)
Lemma _create_root_fs_stays_under_root_witness :
  let w := Demo.disk [("/k", [x4b]); ("/etc/fstab", [x07])] 0 in
  let r := _create_root_fs "/tmp/root"
             [(SrcPath "/k", "vmlinuz"); (SrcPath "/gone", "./boot//initrd")] w in
  r.1 = Raised FileNotFoundError
  ∧ files r.2 !! "/etc/fstab" = Some [x07]
  ∧ files r.2 !! "/tmp/root/vmlinuz" = Some [x4b].
Proof.
  intros w r. split; [by vm_compute|]. split; [|by vm_compute].
  rewrite (_create_root_fs_stays_under_root "/tmp/root"
             [(SrcPath "/k", "vmlinuz"); (SrcPath "/gone", "./boot//initrd")]
             "/etc/fstab" r.1 w r.2);
    [by vm_compute|by vm_compute|by vm_compute|discriminate| |by vm_compute|by vm_compute].
  intros dst Hdst. repeat (apply elem_of_cons in Hdst as [->|Hdst]; [by vm_compute|]).
  by apply elem_of_nil in Hdst.
Defined.

(** In-memory metadata, a kernel copied from disk and the empty grub
    placeholder. *)
Lemma _create_root_fs_materialises_witness :
  let w := Demo.disk [("/k", [x4b; x01])] 0 in
  let files_info := [(SrcBytes [x7b; x7d], "openstack/latest/meta_data.json");
                     (SrcPath "/k", "./vmlinuz");
                     (SrcPath "/dev/null", "boot//grub/grub.cfg")] in
  let r := _create_root_fs "/tmp/root" files_info w in
  files r.2 !! "/tmp/root/openstack/latest/meta_data.json" = Some [x7b; x7d]
  ∧ files r.2 !! "/tmp/root/vmlinuz" = Some [x4b; x01]
  ∧ files r.2 !! "/tmp/root/boot/grub/grub.cfg" = Some [].
Proof.
  intros w files_info r.
  assert (_create_root_fs "/tmp/root" files_info w = (Ok tt, r.2)) as Hrun by (vm_compute; reflexivity).
  assert (canonical "/tmp/root" = true) as Hroot by (vm_compute; reflexivity).
  assert (NoDup (path_join "/tmp/root" <$> files_info.*2)) as Hnd
    by (apply (bool_decide_unpack _); by vm_compute).
  assert (map_Forall (λ q (_ : bytes), under_dir "/tmp/root" q = false) (files w)) as Hfresh.
  { intros q c Hq. destruct (decide (q = "/k")) as [->|Hne]; [by vm_compute|].
    unfold w, Demo.disk in Hq. cbn in Hq. by rewrite lookup_insert_ne in Hq. }
  assert (∀ dst, dst ∈ files_info.*2 → clean_relative dst = true) as Hclean.
  { intros dst Hdst. repeat (apply elem_of_cons in Hdst as [->|Hdst]; [by vm_compute|]).
    by apply elem_of_nil in Hdst. }
  assert (∀ t t', t ∈ path_join "/tmp/root" <$> files_info.*2 →
                  t' ∈ path_join "/tmp/root" <$> files_info.*2 → under_dir t t' = false)
    as Hflat.
  { intros t t' Ht Ht'.
    repeat (apply elem_of_cons in Ht as [->|Ht];
            [repeat (apply elem_of_cons in Ht' as [->|Ht']; [by vm_compute|]);
             by apply elem_of_nil in Ht'|]).
    by apply elem_of_nil in Ht. }
  pose proof (_create_root_fs_materialises "/tmp/root" files_info w r.2 Hrun Hroot
                ltac:(discriminate) Hfresh Hclean Hnd Hflat) as Hall.
  assert (path_join "/tmp/root" "openstack/latest/meta_data.json"
          = "/tmp/root/openstack/latest/meta_data.json") as Hmeta by (vm_compute; reflexivity).
  assert (path_join "/tmp/root" "./vmlinuz" = "/tmp/root/vmlinuz") as Hkernel
    by (vm_compute; reflexivity).
  assert (path_join "/tmp/root" "boot//grub/grub.cfg" = "/tmp/root/boot/grub/grub.cfg")
    as Hgrub by (vm_compute; reflexivity).
  assert (canonical "/k" = true) as Hk by (vm_compute; reflexivity).
  split; [|split].
  - rewrite <- Hmeta.
    refine (proj2 (Hall (SrcBytes [x7b; x7d]) "openstack/latest/meta_data.json" _)).
    by left.
  - rewrite <- Hkernel.
    refine (proj2 (Hall (SrcPath "/k") "./vmlinuz" _) Hk _); [by right; left|].
    apply (bool_decide_unpack _). by vm_compute.
  - rewrite <- Hgrub.
    refine (proj2 (Hall (SrcPath "/dev/null") "boot//grub/grub.cfg" _)).
    by right; right; left.
Defined.
